(** * deck-gl-orbit: geodesic geometry, alignment classification and the
      three-click editor

    A shallow embedding of [utils/geo-utils.ts], [utils/alignment-utils.ts],
    [layers/OrbitAreaEditor.ts] (event handlers) and
    [hooks/useOrbitAreaEditor.ts], with the properties the specification
    states about them.

    Number model.  A JavaScript number is modelled as an exact rational in
    canonical form ([Qc]): every finite double is such a rational, [%] is
    exact in IEEE arithmetic and is modelled exactly, while [+ - * /] are
    taken without rounding.  NaN and the infinities are not represented.
    The program rounds where this model does not, so the properties below
    are those that hold for whatever value an arithmetic operation
    returns, or that use only operations that are exact on doubles.  Where
    rounding decides a property, [normalizeAngleRounded] makes the
    rounding explicit and [Binary64] evaluates the source expression on
    IEEE 754 doubles.

    geolib.  The three geodesic primitives come from the external package
    geolib; they are the operations of the class [Geolib], and everything
    below is proved for an arbitrary instance. *)

From Stdlib Require Import ZArith QArith Qcanon Qround Lqa Lia List String Bool.
From Stdlib Require PrimFloat FloatOps SpecFloat.
Import ListNotations.

Local Open Scope Qc_scope.

(* ================================================================= *)
(** ** JavaScript numbers *)

Module JsNum.

(** An integer literal. *)
Definition num (z : Z) : Qc := Q2Qc (inject_Z z).

(** Integer part of a quotient, rounded toward zero. *)
Definition trunc (x : Qc) : Z := Z.quot (Qnum x) (Zpos (Qden x)).

(** [n % d]: the remainder has the sign of the dividend,
    [n - d * q] with [q] the quotient truncated toward zero.  The program
    only ever divides by the literal 360 (a zero divisor would give NaN in
    JavaScript, which this model does not represent). *)
Definition rem (n d : Qc) : Qc := n - num (trunc (n / d)) * d.

(** [x <= y], [x >= y], [x > y] as JavaScript evaluates them. *)
Definition leb (x y : Qc) : bool := Qle_bool x y.
Definition geb (x y : Qc) : bool := Qle_bool y x.
Definition gtb (x y : Qc) : bool := negb (Qle_bool x y).

(** [v || 0] on a possibly missing number: a missing entry and the
    number zero are both falsy. *)
Definition or_zero (v : option Qc) : Qc :=
  match v with
  | Some x => if Qc_eq_dec x 0 then 0 else x
  | None => 0
  end.

(** [v ?? 0] on a possibly missing number. *)
Definition nullish_zero (v : option Qc) : Qc :=
  match v with
  | Some x => x
  | None => 0
  end.

(** [for (let i = 0; i <= n; i++) acc = body(i, acc)]. *)
Definition for_upto {A : Type} (n : nat) (body : nat -> A -> A) (acc : A) : A :=
  fold_left (fun a i => body i a) (seq 0 (S n)) acc.

(** The loop counter used as a number. *)
Definition of_nat (i : nat) : Qc := num (Z.of_nat i).

End JsNum.

Import JsNum.

Infix "<=?" := JsNum.leb (at level 70, no associativity) : Qc_scope.
Infix ">=?" := JsNum.geb (at level 70, no associativity) : Qc_scope.
Infix ">?" := JsNum.gtb (at level 70, no associativity) : Qc_scope.

(* ================================================================= *)
(** ** types/index.ts *)

(** [interface Point].  The optional [altitude] and [frame] members are
    never read or written by the code embedded here. *)
Record Point : Type := mkPoint {
  latitude : Qc;
  longitude : Qc
}.

(** [enum OrbitAreaAlignmentEnum], a string enum. *)
Inductive OrbitAreaAlignmentEnum : Type :=
| CENTRE
| LEFT
| RIGHT.

(** The string value of each member. *)
Definition alignmentValue (a : OrbitAreaAlignmentEnum) : string :=
  match a with
  | CENTRE => "OrbitAreaAlignmentEnum_CENTRE"
  | LEFT => "OrbitAreaAlignmentEnum_LEFT"
  | RIGHT => "OrbitAreaAlignmentEnum_RIGHT"
  end.

(** [interface OrbitArea] (the optional [id] of [SurfaceBase] is never set
    by the editor). *)
Module OrbitArea.
Record t : Type := mk {
  first_point : Point;
  second_point : Point;
  width : Qc;
  alignment : OrbitAreaAlignmentEnum
}.
End OrbitArea.

(** [enum EditorMode]. *)
Inductive EditorMode : Type :=
| INACTIVE
| FIRST_POINT
| SECOND_POINT
| WIDTH_SELECTION.

(** [interface EditorState]; an optional member is an [option]. *)
Module EditorState.
Record t : Type := mk {
  mode : EditorMode;
  firstPoint : option Point;
  secondPoint : option Point;
  width : option Qc;
  mousePosition : option Point;
  alignment : option OrbitAreaAlignmentEnum
}.
End EditorState.

(** [enum DistanceUnit]. *)
Inductive DistanceUnit : Type :=
| METERS
| KILOMETERS
| NAUTICAL_MILES
| FEET.

(** [DISTANCE_UNIT_CONVERSIONS]: the decimal literals, taken exactly. *)
Definition DISTANCE_UNIT_CONVERSIONS (unit : DistanceUnit) : Qc :=
  match unit with
  | METERS => num 1
  | KILOMETERS => Q2Qc (1 # 1000)
  | NAUTICAL_MILES => Q2Qc (539957 # 1000000000)
  | FEET => Q2Qc (328084 # 100000)
  end.

(** [DISTANCE_UNIT_LABELS]. *)
Definition DISTANCE_UNIT_LABELS (unit : DistanceUnit) : string :=
  match unit with
  | METERS => "m"
  | KILOMETERS => "km"
  | NAUTICAL_MILES => "nm"
  | FEET => "ft"
  end.

(** The part of deck.gl's [PickingInfo] the handlers read:
    [coordinate?: number[]]. *)
Record PickingInfo : Type := mkInfo {
  coordinate : option (list Qc)
}.

(** A pick that resolved to the map position of [p],
    [coordinate = [longitude, latitude]]. *)
Definition pickAt (p : Point) : PickingInfo :=
  {| coordinate := Some [longitude p; latitude p] |}.

(** A pick with no resolvable map coordinate. *)
Definition pickNothing : PickingInfo := {| coordinate := None |}.

(* ================================================================= *)
(** ** geolib *)

(** The three functions imported from geolib.  Note the argument order of
    [computeDestinationPoint]: start, distance, bearing. *)
Class Geolib : Type := {
  getDistance : Point -> Point -> Qc;
  getGreatCircleBearing : Point -> Point -> Qc;
  computeDestinationPoint : Point -> Qc -> Qc -> Point
}.

(* ================================================================= *)
(** ** utils/geo-utils.ts *)

Module GeoUtils.
Section WithGeolib.
Context {G : Geolib}.

Definition calculateDistance (point1 point2 : Point) : Qc :=
  getDistance
    {| latitude := latitude point1; longitude := longitude point1 |}
    {| latitude := latitude point2; longitude := longitude point2 |}.

Definition calculateBearing (point1 point2 : Point) : Qc :=
  getGreatCircleBearing
    {| latitude := latitude point1; longitude := longitude point1 |}
    {| latitude := latitude point2; longitude := longitude point2 |}.

Definition calculateDestinationPoint (start : Point) (bearing distance : Qc)
  : Point :=
  let result :=
    computeDestinationPoint
      {| latitude := latitude start; longitude := longitude start |}
      distance bearing in
  {| latitude := latitude result; longitude := longitude result |}.

Definition normalizeAngle (angle : Qc) : Qc :=
  JsNum.rem (JsNum.rem angle (num 360) + num 360) (num 360).

Definition calculatePerpendicularPoint
  (start : Point) (bearing distance : Qc) (isRight : bool) : Point :=
  let perpendicularBearing :=
    normalizeAngle (bearing + (if isRight then num 90 else num (-90))) in
  calculateDestinationPoint start perpendicularBearing distance.

(** The local constant [segments] of [generateOrbitAreaPolygon]. *)
Definition segments : nat := 20.

(** The local variable [centerline] of [generateOrbitAreaPolygon] after
    the [if / else if] on the alignment string. *)
Definition orbitAreaCenterline
  (firstPoint secondPoint : Point) (width : Qc) (alignment : string)
  : Point * Point :=
  let bearing := calculateBearing firstPoint secondPoint in
  let radius := width / num 2 in
  if String.eqb alignment "OrbitAreaAlignmentEnum_LEFT" then
    let leftBearing := normalizeAngle (bearing - num 90) in
    (calculateDestinationPoint firstPoint leftBearing radius,
     calculateDestinationPoint secondPoint leftBearing radius)
  else if String.eqb alignment "OrbitAreaAlignmentEnum_RIGHT" then
    let rightBearing := normalizeAngle (bearing + num 90) in
    (calculateDestinationPoint firstPoint rightBearing radius,
     calculateDestinationPoint secondPoint rightBearing radius)
  else (firstPoint, secondPoint).

(** One [for] loop of [generateOrbitAreaPolygon]: pushes the points at
    [startAngle + i * angleStep], [i = 0 .. segments], around [center]. *)
Definition pushCap
  (center : Point) (radius startAngle angleStep : Qc)
  (polygonPoints : list Point) : list Point :=
  for_upto segments
    (fun i pts =>
       let angle := normalizeAngle (startAngle + of_nat i * angleStep) in
       let point := calculateDestinationPoint center angle radius in
       pts ++ [point])
    polygonPoints.

(** [generateOrbitAreaPolygon].  The unused locals of the source
    ([distance], and the second [rightBearing] / [leftBearing]) are pure
    and left out.  [angleStep] is computed once, from the first cap's
    angles, and reused by the second loop, as in the source. *)
Definition generateOrbitAreaPolygon
  (firstPoint secondPoint : Point) (width : Qc) (alignment : string)
  : list Point :=
  let bearing := calculateBearing firstPoint secondPoint in
  let radius := width / num 2 in
  let centerline :=
    orbitAreaCenterline firstPoint secondPoint width alignment in
  let polygonPoints := [] in
  let startAngle := normalizeAngle (bearing + num 90) in
  let endAngle := normalizeAngle (bearing - num 90) in
  let endAngle :=
    if startAngle >? endAngle then endAngle + num 360 else endAngle in
  let angleStep := (endAngle - startAngle) / of_nat segments in
  let polygonPoints :=
    pushCap (fst centerline) radius startAngle angleStep polygonPoints in
  let startAngle := normalizeAngle (bearing - num 90) in
  let endAngle := normalizeAngle (bearing + num 90) in
  let endAngle :=
    if startAngle >? endAngle then endAngle + num 360 else endAngle in
  let polygonPoints :=
    pushCap (snd centerline) radius startAngle angleStep polygonPoints in
  match polygonPoints with
  | firstPoint :: _ =>
      polygonPoints ++
        [ {| latitude := latitude firstPoint;
             longitude := longitude firstPoint |} ]
  | [] => polygonPoints
  end.

(** [convertDistance]. *)
Definition convertDistance (meters : Qc) (unit : DistanceUnit) : Qc :=
  meters * DISTANCE_UNIT_CONVERSIONS unit.

(** [generateSemicirclePoints]; [segments] is the loop bound (20 by
    default).  With [segments = 0] the source divides by zero and its
    bearings are NaN, which this number model does not represent: the
    statements about this function take [segments >= 1]. *)
Definition generateSemicirclePoints
  (center : Point) (radius startBearing endBearing : Qc) (segments : nat)
  : list Point :=
  let points := [] in
  let angleStep := (endBearing - startBearing) / of_nat segments in
  for_upto segments
    (fun i points =>
       let bearing := normalizeAngle (startBearing + of_nat i * angleStep) in
       points ++ [calculateDestinationPoint center bearing radius])
    points.

End WithGeolib.
End GeoUtils.

(* ================================================================= *)
(** ** Rounding *)


(** [normalizeAngle] on IEEE 754 binary64 numbers, the numbers of the
    program: the addition is the machine's, with its rounding to nearest. *)
Module Binary64.
Import PrimFloat FloatOps SpecFloat.

(** [n % d] on doubles.  The result is exact: the remainder of the two
    values, with the sign of the dividend, computed on the integer
    mantissas brought to a common exponent.  A NaN or infinite dividend
    and a zero divisor give NaN; a zero dividend and an infinite divisor
    give the dividend. *)
Definition rem (n d : float) : float :=
  match Prim2SF n, Prim2SF d with
  | S754_nan, _ | _, S754_nan => nan
  | S754_infinity _, _ | _, S754_zero _ => nan
  | S754_zero _, _ => n
  | S754_finite _ _ _, S754_infinity _ => n
  | S754_finite s mn en, S754_finite _ md ed =>
      let e := Z.min en ed in
      let r := Z.rem (Zpos mn * 2 ^ (en - e)) (Zpos md * 2 ^ (ed - e)) in
      SF2Prim (match r with
               | Zpos p => S754_finite s p e
               | _ => S754_zero s
               end)
  end.

Definition normalizeAngle (angle : float) : float :=
  rem (add (rem angle 360%float) 360%float) 360%float.



End Binary64.

Import GeoUtils.

(* ================================================================= *)
(** ** utils/alignment-utils.ts *)

(** [interface AlignmentQuadrant]. *)
Module AlignmentQuadrant.
Record t : Type := mk {
  name : string;
  minAngle : Qc;
  maxAngle : Qc;
  alignment : OrbitAreaAlignmentEnum
}.
End AlignmentQuadrant.

(** The object [determineAlignmentFromBearing] returns. *)
Module BearingAlignment.
Record t : Type := mk {
  alignment : OrbitAreaAlignmentEnum;
  quadrantName : string;
  relativeBearing : Qc
}.
End BearingAlignment.

Module AlignmentUtils.

Import AlignmentQuadrant.

Definition ALIGNMENT_QUADRANTS : list AlignmentQuadrant.t :=
  [ {| name := "CENTER_FORWARD"; minAngle := num 315; maxAngle := num 45;
       alignment := CENTRE |};
    {| name := "RIGHT"; minAngle := num 45; maxAngle := num 135;
       alignment := RIGHT |};
    {| name := "CENTER_BACKWARD"; minAngle := num 135; maxAngle := num 225;
       alignment := CENTRE |};
    {| name := "LEFT"; minAngle := num 225; maxAngle := num 315;
       alignment := LEFT |} ].

(** The [for (const quadrant of ...)] loop of
    [determineAlignmentFromMousePosition]: the quadrant at which the loop
    returns, or [None] when the loop runs to its end. *)
Fixpoint scanQuadrants
  (relativeBearing : Qc) (quadrants : list AlignmentQuadrant.t)
  : option AlignmentQuadrant.t :=
  match quadrants with
  | [] => None
  | quadrant :: rest =>
      if minAngle quadrant >? maxAngle quadrant then
        if (relativeBearing >=? minAngle quadrant)
           || (relativeBearing <=? maxAngle quadrant)
        then Some quadrant
        else scanQuadrants relativeBearing rest
      else if (relativeBearing >=? minAngle quadrant)
              && (relativeBearing <=? maxAngle quadrant)
      then Some quadrant
      else scanQuadrants relativeBearing rest
  end.

Section WithGeolib.
Context {G : Geolib}.

(** The local constant [relativeBearing]. *)
Definition relativeBearing (firstPoint secondPoint mousePoint : Point) : Qc :=
  let mainBearing := calculateBearing firstPoint secondPoint in
  let mouseBearing := calculateBearing secondPoint mousePoint in
  normalizeAngle (mouseBearing - mainBearing).

Definition determineAlignmentFromMousePosition
  (firstPoint secondPoint mousePoint : Point) : OrbitAreaAlignmentEnum :=
  match scanQuadrants (relativeBearing firstPoint secondPoint mousePoint)
          ALIGNMENT_QUADRANTS with
  | Some quadrant => alignment quadrant
  | None => CENTRE
  end.

(** [determineAlignmentFromBearing]: its loop is the loop of
    [determineAlignmentFromMousePosition], run on the normalised axis
    bearing; here the source returns the quadrant's name as well. *)
Definition determineAlignmentFromBearing (firstPoint secondPoint : Point)
  : BearingAlignment.t :=
  let bearing := calculateBearing firstPoint secondPoint in
  let normalizedBearing := normalizeAngle bearing in
  match scanQuadrants normalizedBearing ALIGNMENT_QUADRANTS with
  | Some quadrant =>
      BearingAlignment.mk (alignment quadrant) (name quadrant)
        normalizedBearing
  | None => BearingAlignment.mk CENTRE "DEFAULT" normalizedBearing
  end.

End WithGeolib.

(** The classifier as the specification words it: a quadrant that wraps
    ([minAngle > maxAngle]) contains [relative] when
    [relative >= minAngle OR relative <= maxAngle], any other when
    [minAngle <= relative <= maxAngle]; the quadrants are scanned in the
    order forward-centre, right, backward-centre, left. *)
Definition specContains (relative : Qc) (q : AlignmentQuadrant.t) : bool :=
  if minAngle q >? maxAngle q
  then (relative >=? minAngle q) || (relative <=? maxAngle q)
  else (minAngle q <=? relative) && (relative <=? maxAngle q).

Definition specScanOrder : list AlignmentQuadrant.t :=
  [ mk "CENTER_FORWARD" (num 315) (num 45) CENTRE;
    mk "RIGHT" (num 45) (num 135) RIGHT;
    mk "CENTER_BACKWARD" (num 135) (num 225) CENTRE;
    mk "LEFT" (num 225) (num 315) LEFT ].

Definition specClassify (relative : Qc) : option OrbitAreaAlignmentEnum :=
  option_map alignment (find (specContains relative) specScanOrder).

End AlignmentUtils.

Import AlignmentUtils.

(* ================================================================= *)
(** ** Callbacks *)

(** An invocation of one of the two callbacks a layer receives in its
    props, with the argument it was given. *)
Inductive Call : Type :=
| StateChange (newState : EditorState.t)
| OrbitAreaComplete (orbitArea : OrbitArea.t).

(** The OrbitAreas delivered in a trace of calls. *)
Fixpoint completions (calls : list Call) : list OrbitArea.t :=
  match calls with
  | [] => []
  | OrbitAreaComplete a :: rest => a :: completions rest
  | StateChange _ :: rest => completions rest
  end.

(* ================================================================= *)
(** ** layers/OrbitAreaEditor.ts: the event handlers *)

Module OrbitAreaEditor.

Import EditorState.

(** [OrbitAreaEditorProps], restricted to what the handlers use.  A
    callback is a host function: the model records whether it was provided
    and, in the trace a handler returns, each call made to it. *)
Record Props : Type := mkProps {
  editorState : EditorState.t;
  onStateChange : bool;
  onOrbitAreaComplete : bool
}.

(** The layer object: its props and the private [_currentAlignment]. *)
Record Layer : Type := mkLayer {
  props : Props;
  _currentAlignment : OrbitAreaAlignmentEnum
}.

(** What a handler leaves behind: the layer, the calls it made, in order,
    and its return value. *)
Record Outcome : Type := mkOutcome {
  layer : Layer;
  calls : list Call;
  result : bool
}.

(** A freshly constructed layer: [_currentAlignment] is initialised to
    [CENTRE].  (deck.gl builds a new layer object at every render and
    then runs [updateState] on it.) *)
Definition create (p : Props) : Layer :=
  {| props := p; _currentAlignment := CENTRE |}.

Section WithGeolib.
Context {G : Geolib}.

(** [updateState]: the assignments to [_currentAlignment]
    ([super.updateState] and [setNeedsRedraw] concern rendering). *)
Definition updateState (this : Layer) : Layer :=
  let es := editorState (props this) in
  let this :=
    match alignment es with
    | Some a => {| props := props this; _currentAlignment := a |}
    | None => this
    end in
  match mode es, firstPoint es, secondPoint es, mousePosition es with
  | WIDTH_SELECTION, Some fp, Some sp, Some mp =>
      {| props := props this;
         _currentAlignment := determineAlignmentFromMousePosition fp sp mp |}
  | _, _, _, _ => this
  end.

(** The host replaces the props and deck.gl runs [updateState]. *)
Definition setProps (this : Layer) (p : Props) : Layer :=
  updateState {| props := p; _currentAlignment := _currentAlignment this |}.

Definition onClick (this : Layer) (info : PickingInfo) : Outcome :=
  let es := editorState (props this) in
  if negb (onStateChange (props this)) then mkOutcome this [] false
  else
    let pickedPoint :=
      {| longitude :=
           or_zero (match coordinate info with
                    | Some c => nth_error c 0
                    | None => None
                    end);
         latitude :=
           or_zero (match coordinate info with
                    | Some c => nth_error c 1
                    | None => None
                    end) |} in
    match mode es with
    | FIRST_POINT =>
        mkOutcome this
          [StateChange
             (mk SECOND_POINT (Some pickedPoint) (secondPoint es)
                 (width es) (mousePosition es) (alignment es))]
          true
    | SECOND_POINT =>
        mkOutcome this
          [StateChange
             (mk WIDTH_SELECTION (firstPoint es) (Some pickedPoint)
                 (width es) (mousePosition es) (alignment es))]
          true
    | WIDTH_SELECTION =>
        match firstPoint es, secondPoint es with
        | Some fp, Some sp =>
            let distance := calculateDistance sp pickedPoint in
            let width := distance * num 2 in
            let effectiveAlignment := _currentAlignment this in
            let orbitArea :=
              {| OrbitArea.first_point := fp;
                 OrbitArea.second_point := sp;
                 OrbitArea.width := width;
                 OrbitArea.alignment := effectiveAlignment |} in
            mkOutcome this
              ((if onOrbitAreaComplete (props this)
                then [OrbitAreaComplete orbitArea] else [])
               ++ [StateChange
                     (mk INACTIVE None None None None (alignment es))])
              true
        | _, _ => mkOutcome this [] true
        end
    | INACTIVE => mkOutcome this [] true
    end.

Definition onHover (this : Layer) (info : PickingInfo) : Outcome :=
  let es := editorState (props this) in
  if negb (onStateChange (props this)) then mkOutcome this [] false
  else
    match coordinate info with
    | None => mkOutcome this [] false
    | Some c =>
        let mousePosition :=
          {| longitude := nullish_zero (nth_error c 0);
             latitude := nullish_zero (nth_error c 1) |} in
        match mode es, firstPoint es, secondPoint es with
        | WIDTH_SELECTION, Some fp, Some sp =>
            let detectedAlignment :=
              determineAlignmentFromMousePosition fp sp mousePosition in
            mkOutcome
              {| props := props this;
                 _currentAlignment := detectedAlignment |}
              [StateChange
                 (mk (mode es) (firstPoint es) (secondPoint es) (width es)
                     (Some mousePosition) (alignment es))]
              true
        | _, _, _ =>
            mkOutcome this
              [StateChange
                 (mk (mode es) (firstPoint es) (secondPoint es) (width es)
                     (Some mousePosition) (alignment es))]
              true
        end
    end.

(** The [polygonPoints] that [renderLayers] computes for the preview, in
    its width-selection branch; no preview in any other case. *)
Definition previewPolygon (this : Layer) : option (list Point) :=
  let es := editorState (props this) in
  let alignment := _currentAlignment this in
  match mode es, firstPoint es, secondPoint es, mousePosition es with
  | WIDTH_SELECTION, Some fp, Some sp, Some mp =>
      let radius := calculateDistance sp mp in
      let width := radius * num 2 in
      let effectiveAlignment := alignment in
      Some (generateOrbitAreaPolygon fp sp width
              (alignmentValue effectiveAlignment))
  | _, _, _, _ => None
  end.

End WithGeolib.
End OrbitAreaEditor.

(* ================================================================= *)
(** ** hooks/useOrbitAreaEditor.ts *)

Module UseOrbitAreaEditor.

(** The state object of [useState]: here [alignment] is always set. *)
Module State.
Record t : Type := mk {
  mode : EditorMode;
  firstPoint : option Point;
  secondPoint : option Point;
  width : option Qc;
  mousePosition : option Point;
  alignment : OrbitAreaAlignmentEnum
}.
End State.

Import State.

(** The functions the hook returns, as the events they respond to
    ([setDistanceUnit] is the bare setter of a separate state cell and is
    left out). *)
Inductive Event : Type :=
| StartEditing
| CancelEditing
| HandleMapClick (info : PickingInfo)
| HandleMouseMove (info : PickingInfo)
| SetAlignment (a : OrbitAreaAlignmentEnum).

(** The initial value given to [useState]. *)
Definition initialState : State.t :=
  mk INACTIVE None None None None CENTRE.

(** Each handler maps the current [editorState] to the state it passes to
    [setEditorState] and to the calls it makes on the
    [onOrbitAreaComplete] callback the hook was given.  No handler of the
    source refers to that callback, so every trace below is empty. *)

Definition startEditing (s : State.t) : State.t * list Call :=
  (mk FIRST_POINT None None None None CENTRE, []).

Definition cancelEditing (s : State.t) : State.t * list Call :=
  (mk INACTIVE None None None None CENTRE, []).

Definition handleMapClick (editorState : State.t) (info : PickingInfo)
  : State.t * list Call :=
  match coordinate info with
  | None => (editorState, [])
  | Some c =>
      let pickedPoint :=
        {| longitude := nullish_zero (nth_error c 0);
           latitude := nullish_zero (nth_error c 1) |} in
      match mode editorState with
      | FIRST_POINT =>
          (mk SECOND_POINT (Some pickedPoint) (secondPoint editorState)
              (width editorState) (mousePosition editorState)
              (alignment editorState), [])
      | SECOND_POINT =>
          (mk WIDTH_SELECTION (firstPoint editorState) (Some pickedPoint)
              (width editorState) (mousePosition editorState)
              (alignment editorState), [])
      | WIDTH_SELECTION =>
          match firstPoint editorState, secondPoint editorState with
          | Some _, Some _ =>
              (mk INACTIVE None None None None (alignment editorState), [])
          | _, _ => (editorState, [])
          end
      | INACTIVE => (editorState, [])
      end
  end.

Definition handleMouseMove (editorState : State.t) (info : PickingInfo)
  : State.t * list Call :=
  match coordinate info with
  | None => (editorState, [])
  | Some c =>
      let mousePosition :=
        {| longitude := nullish_zero (nth_error c 0);
           latitude := nullish_zero (nth_error c 1) |} in
      (mk (mode editorState) (firstPoint editorState)
          (secondPoint editorState) (width editorState)
          (Some mousePosition) (alignment editorState), [])
  end.

Definition setAlignment (prevState : State.t) (a : OrbitAreaAlignmentEnum)
  : State.t * list Call :=
  (mk (mode prevState) (firstPoint prevState) (secondPoint prevState)
      (width prevState) (mousePosition prevState) a, []).

Definition handle (s : State.t) (e : Event) : State.t * list Call :=
  match e with
  | StartEditing => startEditing s
  | CancelEditing => cancelEditing s
  | HandleMapClick info => handleMapClick s info
  | HandleMouseMove info => handleMouseMove s info
  | SetAlignment a => setAlignment s a
  end.

(** Events are handled in arrival order, each against the state the
    previous one produced, that is, with a render of the component between
    any two events ([HookRuntime] below has the schedules without); the
    calls are collected in order. *)
Fixpoint run (s : State.t) (events : list Event) : State.t * list Call :=
  match events with
  | [] => (s, [])
  | e :: rest =>
      let '(s1, calls1) := handle s e in
      let '(s2, calls2) := run s1 rest in
      (s2, calls1 ++ calls2)
  end.

(** [isEditing]. *)
Definition isEditing (s : State.t) : bool :=
  match mode s with
  | INACTIVE => false
  | _ => true
  end.

(** The [editorState] the hook hands to the editor layer. *)
Definition toEditorState (s : State.t) : EditorState.t :=
  EditorState.mk (mode s) (firstPoint s) (secondPoint s) (width s)
    (mousePosition s) (Some (alignment s)).

End UseOrbitAreaEditor.

(* ================================================================= *)
(** ** constants/layers.ts *)

Module Layers.

(** [enum OrbitLayerType], a numeric enum. *)
Inductive OrbitLayerType : Type :=
| BASE_POLYGON
| ORBIT_AREA
| ORBIT_AREA_OUTLINE
| LINES
| AXIS_LINE
| POINTS
| FIRST_POINT
| SECOND_POINT
| PREVIEW
| PREVIEW_POLYGON
| INTERACTIVE
| MOUSE_POSITION
| DEBUG_BASE
| DEBUG_QUADRANTS
| DEBUG_LABELS.

(** [OrbitLayerType[layerType]]: the reverse mapping of the enum, the
    member's name. *)
Definition memberName (layerType : OrbitLayerType) : string :=
  match layerType with
  | BASE_POLYGON => "BASE_POLYGON"
  | ORBIT_AREA => "ORBIT_AREA"
  | ORBIT_AREA_OUTLINE => "ORBIT_AREA_OUTLINE"
  | LINES => "LINES"
  | AXIS_LINE => "AXIS_LINE"
  | POINTS => "POINTS"
  | FIRST_POINT => "FIRST_POINT"
  | SECOND_POINT => "SECOND_POINT"
  | PREVIEW => "PREVIEW"
  | PREVIEW_POLYGON => "PREVIEW_POLYGON"
  | INTERACTIVE => "INTERACTIVE"
  | MOUSE_POSITION => "MOUSE_POSITION"
  | DEBUG_BASE => "DEBUG_BASE"
  | DEBUG_QUADRANTS => "DEBUG_QUADRANTS"
  | DEBUG_LABELS => "DEBUG_LABELS"
  end.

(** [String.prototype.toLowerCase] on ASCII text. *)
Definition lowerAscii (c : Ascii.ascii) : Ascii.ascii :=
  let n := Ascii.nat_of_ascii c in
  if ((65 <=? n) && (n <=? 90))%nat then Ascii.ascii_of_nat (n + 32) else c.

Fixpoint toLowerCase (s : string) : string :=
  match s with
  | EmptyString => EmptyString
  | String c rest => String (lowerAscii c) (toLowerCase rest)
  end.

(** [getLayerId]; a missing suffix is [None], and the empty string is
    falsy like it. *)
Definition getLayerId
  (baseId : string) (layerType : OrbitLayerType) (suffix : option string)
  : string :=
  let typeStr := toLowerCase (memberName layerType) in
  match suffix with
  | Some (String c rest) =>
      (baseId ++ "-" ++ typeStr ++ "-" ++ String c rest)%string
  | Some EmptyString | None => (baseId ++ "-" ++ typeStr)%string
  end.

End Layers.

(* ================================================================= *)
(** ** layers/OrbitAreaLayer.ts: the data of the two sublayers *)

Module OrbitAreaLayer.
Section WithGeolib.
Context {G : Geolib}.

(** An entry of [polygons] in [renderLayers] (the optional [id] of the
    area is never set by the editor). *)
Record PolygonDatum : Type := mkPolygonDatum {
  polygon : list Point;
  originalData : OrbitArea.t
}.

(** [polygons = data.map (...)]. *)
Definition polygons (data : list OrbitArea.t) : list PolygonDatum :=
  map (fun orbitArea =>
         let polygonPoints :=
           generateOrbitAreaPolygon
             (OrbitArea.first_point orbitArea)
             (OrbitArea.second_point orbitArea)
             (OrbitArea.width orbitArea)
             (alignmentValue (OrbitArea.alignment orbitArea)) in
         {| polygon := polygonPoints; originalData := orbitArea |})
      data.

(** [getPolygon]: a polygon as [[longitude, latitude]] pairs. *)
Definition getPolygon (d : PolygonDatum) : list (Qc * Qc) :=
  map (fun p => (longitude p, latitude p)) (polygon d).

(** An entry of the marker layer's data. *)
Record MarkerDatum : Type := mkMarkerDatum {
  position : Qc * Qc;
  markerData : OrbitArea.t;
  isFirstPoint : bool
}.

(** [data.flatMap (...)] of the marker layer. *)
Definition markers (data : list OrbitArea.t) : list MarkerDatum :=
  flat_map (fun orbitArea =>
              [ {| position :=
                     (longitude (OrbitArea.first_point orbitArea),
                      latitude (OrbitArea.first_point orbitArea));
                   markerData := orbitArea;
                   isFirstPoint := true |};
                {| position :=
                     (longitude (OrbitArea.second_point orbitArea),
                      latitude (OrbitArea.second_point orbitArea));
                   markerData := orbitArea;
                   isFirstPoint := false |} ])
           data.

End WithGeolib.
End OrbitAreaLayer.

(* ================================================================= *)
(** ** layers/AlignmentDebugShaderLayer.ts: the geometry helpers *)

Module AlignmentDebug.
Section WithGeolib.
Context {G : Geolib}.

(** [dividerAngles] and [numDots] of [generateQuadrantDividers]. *)
Definition dividerAngles : list Qc := [num 45; num 135; num 225; num 315].
Definition numDots : nat := 20.

(** [generateQuadrantDividers]; [center] is [[longitude, latitude]].  The
    parameter [dotSpacing] is not used by the source. *)
Definition generateQuadrantDividers
  (center : Qc * Qc) (mainBearing radius : Qc) : list (list Point) :=
  let centerPoint := {| longitude := fst center; latitude := snd center |} in
  map (fun angle =>
         let absoluteAngle := normalizeAngle (mainBearing + angle) in
         for_upto numDots
           (fun i divider =>
              let distance := (of_nat i * radius) / of_nat numDots in
              divider
                ++ [calculateDestinationPoint centerPoint absoluteAngle distance])
           [])
      dividerAngles.

(** The loop [for (angle = startAngle; angle <= adjustedEndAngle;
    angle += 2)] of [generateQuadrantVertices], pushing one arc vertex per
    turn; [fuel] bounds the number of turns.  The angle advances by
    exactly 2, as it does in the program while the angles are whole
    numbers below 2^53 in size, which those of [ALIGNMENT_QUADRANTS] are;
    the statements about this loop are made for these quadrants. *)
Fixpoint arcLoop
  (fuel : nat) (centerPoint : Point) (mainBearing radius : Qc)
  (angle adjustedEndAngle : Qc) (vertices : list Point) : list Point :=
  match fuel with
  | O => vertices
  | S fuel' =>
      if angle <=? adjustedEndAngle then
        let absoluteAngle := normalizeAngle (mainBearing + angle) in
        let point := calculateDestinationPoint centerPoint absoluteAngle radius in
        arcLoop fuel' centerPoint mainBearing radius
          (angle + num 2) adjustedEndAngle (vertices ++ [point])
      else vertices
  end.

(** Turns after which the loop condition has failed: the angle advances by
    2 each time. *)
Definition arcFuel (startAngle adjustedEndAngle : Qc) : nat :=
  if startAngle <=? adjustedEndAngle
  then S (S (Z.to_nat (trunc ((adjustedEndAngle - startAngle) / num 2))))
  else 1%nat.

(** [generateQuadrantVertices]. *)
Definition generateQuadrantVertices
  (center : Qc * Qc) (mainBearing : Qc) (quadrant : AlignmentQuadrant.t)
  (radius : Qc) : list Point :=
  let centerPoint := {| longitude := fst center; latitude := snd center |} in
  let vertices := [centerPoint] in
  let startAngle := AlignmentQuadrant.minAngle quadrant in
  let endAngle := AlignmentQuadrant.maxAngle quadrant in
  let adjustedEndAngle :=
    if startAngle >? endAngle then endAngle + num 360 else endAngle in
  let vertices :=
    arcLoop (arcFuel startAngle adjustedEndAngle) centerPoint mainBearing
      radius startAngle adjustedEndAngle vertices in
  let vertices :=
    if startAngle >? endAngle then
      let absoluteAngle := normalizeAngle (mainBearing + endAngle) in
      let point := calculateDestinationPoint centerPoint absoluteAngle radius in
      vertices ++ [point]
    else vertices in
  vertices ++ [centerPoint].

(** [isActive] of [renderLayers]. *)
Definition isActive
  (quadrant : AlignmentQuadrant.t) (currentAlignment : OrbitAreaAlignmentEnum)
  : bool :=
  match AlignmentQuadrant.alignment quadrant, currentAlignment with
  | CENTRE, CENTRE | LEFT, LEFT | RIGHT, RIGHT => true
  | _, _ => false
  end.

End WithGeolib.
End AlignmentDebug.

(* ================================================================= *)
(** ** A test double for geolib

    Used only to run the definitions above on concrete inputs: bearings
    are the eight compass directions read off the signs of the coordinate
    differences, distances are taxicab distances in coordinate units, and
    a destination records the distance and bearing it was asked for. *)

Module GridGeolib.

Definition bearing (a b : Point) : Qc :=
  match (latitude b ?= latitude a), (longitude b ?= longitude a) with
  | Gt, Eq => num 0
  | Gt, Gt => num 45
  | Eq, Gt => num 90
  | Lt, Gt => num 135
  | Lt, Eq => num 180
  | Lt, Lt => num 225
  | Eq, Lt => num 270
  | Gt, Lt => num 315
  | Eq, Eq => num 0
  end.

Definition absdiff (x y : Qc) : Qc := if x <=? y then y - x else x - y.

Definition distance (a b : Point) : Qc :=
  absdiff (latitude a) (latitude b) + absdiff (longitude a) (longitude b).

Definition destination (start : Point) (distance bearing : Qc) : Point :=
  {| latitude := latitude start + distance;
     longitude := longitude start + bearing |}.

Definition geolib : Geolib :=
  {| getDistance := distance;
     getGreatCircleBearing := bearing;
     computeDestinationPoint := destination |}.

(** Grid positions, [pt lat lon]. *)
Definition pt (lat lon : Z) : Point :=
  {| latitude := num lat; longitude := num lon |}.

End GridGeolib.

(* ================================================================= *)
(** ** Notions used in the statements *)

(** The points one cap loop pushes, as a list. *)
Definition capPoints {G : Geolib}
  (center : Point) (radius startAngle angleStep : Qc) : list Point :=
  map (fun i =>
         calculateDestinationPoint center
           (normalizeAngle (startAngle + of_nat i * angleStep)) radius)
      (seq 0 (S segments)).

(** The end angle after the wraparound adjustment. *)
Definition adjustedEnd (startAngle endAngle : Qc) : Qc :=
  if startAngle >? endAngle then endAngle + num 360 else endAngle.

(** The relative bearings shared by two quadrants, each with the
    alignment the scan gives it. *)
Definition sharedBoundaries : list (Z * OrbitAreaAlignmentEnum) :=
  [ (45, CENTRE); (135, RIGHT); (225, CENTRE); (315, CENTRE) ]%Z.

(** A layer in width selection on the grid: axis from (0,0) north to
    (1,0), both callbacks provided. *)
Definition gridWidthSelection : OrbitAreaEditor.Layer :=
  OrbitAreaEditor.create
    (OrbitAreaEditor.mkProps
       (EditorState.mk WIDTH_SELECTION
          (Some (GridGeolib.pt 0 0)) (Some (GridGeolib.pt 1 0))
          None None (Some CENTRE))
       true true).

(** A layer waiting for the first point, both callbacks provided. *)
Definition awaitingFirstPoint : OrbitAreaEditor.Layer :=
  OrbitAreaEditor.create
    (OrbitAreaEditor.mkProps
       (EditorState.mk FIRST_POINT None None None None None) true true).

(** A hook state in width selection with both points placed. *)
Definition hookWidthSelection : UseOrbitAreaEditor.State.t :=
  UseOrbitAreaEditor.State.mk WIDTH_SELECTION
    (Some (GridGeolib.pt 0 0)) (Some (GridGeolib.pt 1 0)) None
    (Some (GridGeolib.pt 1 1)) RIGHT.

(** The alignment seen from the other side of the axis. *)
Definition mirrorAlignment (a : OrbitAreaAlignmentEnum) : OrbitAreaAlignmentEnum :=
  match a with
  | CENTRE => CENTRE
  | LEFT => RIGHT
  | RIGHT => LEFT
  end.

(** A suffix as [getLayerId] tells it apart: the empty string counts as
    no suffix. *)
Definition effectiveSuffix (suffix : option string) : option string :=
  match suffix with
  | Some EmptyString => None
  | other => other
  end.

(** Reading an identifier back: the text before the first hyphen and the
    text after it, and the layer type of a lower-case member name. *)
Definition hyphen : Ascii.ascii := Ascii.ascii_of_nat 45.

Fixpoint splitAtHyphen (s : string) : string * option string :=
  match s with
  | EmptyString => (EmptyString, None)
  | String c rest =>
      if Ascii.eqb c hyphen then (EmptyString, Some rest)
      else let '(before, after) := splitAtHyphen rest in
           (String c before, after)
  end.

Fixpoint noHyphen (s : string) : bool :=
  match s with
  | EmptyString => true
  | String c rest => negb (Ascii.eqb c hyphen) && noHyphen rest
  end.

Definition allLayerTypes : list Layers.OrbitLayerType :=
  [ Layers.BASE_POLYGON; Layers.ORBIT_AREA; Layers.ORBIT_AREA_OUTLINE;
    Layers.LINES; Layers.AXIS_LINE; Layers.POINTS; Layers.FIRST_POINT;
    Layers.SECOND_POINT; Layers.PREVIEW; Layers.PREVIEW_POLYGON;
    Layers.INTERACTIVE; Layers.MOUSE_POSITION; Layers.DEBUG_BASE;
    Layers.DEBUG_QUADRANTS; Layers.DEBUG_LABELS ].

Definition layerTypeOfName (s : string) : option Layers.OrbitLayerType :=
  find (fun t => String.eqb (Layers.toLowerCase (Layers.memberName t)) s)
    allLayerTypes.



Definition isMove (e : UseOrbitAreaEditor.Event) : Prop :=
  match e with
  | UseOrbitAreaEditor.HandleMouseMove _ => True
  | _ => False
  end.

(** The point a handler of the hook reads from a coordinate array. *)
Definition pointOf (c : list Qc) : Point :=
  {| longitude := nullish_zero (nth_error c 0);
     latitude := nullish_zero (nth_error c 1) |}.

(** The states requested through [onStateChange] in a trace of calls. *)
Fixpoint stateChanges (calls : list Call) : list EditorState.t :=
  match calls with
  | [] => []
  | StateChange s :: rest => s :: stateChanges rest
  | OrbitAreaComplete _ :: rest => stateChanges rest
  end.

(** The hook states in which a click with a coordinate changes the
    state. *)
Definition clickApplies (s : UseOrbitAreaEditor.State.t) : bool :=
  match UseOrbitAreaEditor.State.mode s with
  | INACTIVE => false
  | FIRST_POINT | SECOND_POINT => true
  | WIDTH_SELECTION =>
      match UseOrbitAreaEditor.State.firstPoint s,
            UseOrbitAreaEditor.State.secondPoint s with
      | Some _, Some _ => true
      | _, _ => false
      end
  end.

(* ================================================================= *)
(** ** The hook under React's rendering *)

(** The handlers [handleMapClick] and [handleMouseMove] are re-created by
    [useCallback] when [editorState] changes, and each reads the
    [editorState] of the render that created it; what it passes to
    [setEditorState] replaces the state.  [setAlignment] passes an
    updater, which React applies to the latest state.  The state a
    handler reads is therefore the one of the last render, not the one
    the previous handler set, unless a render came in between. *)
Module HookRuntime.

Import UseOrbitAreaEditor.

(** What a handler closed over [editorState] passes to [setEditorState]:
    a new state, an updater of the latest state, or nothing when it
    returns without calling it. *)
Inductive Update : Type :=
| SetState (s : State.t)
| UpdateState (f : State.t -> State.t)
| NoUpdate.

Definition update (editorState : State.t) (e : Event) : Update :=
  match e with
  | StartEditing => SetState (fst (startEditing editorState))
  | CancelEditing => SetState (fst (cancelEditing editorState))
  | HandleMapClick info =>
      match coordinate info with
      | None => NoUpdate
      | Some _ =>
          if clickApplies editorState
          then SetState (fst (handleMapClick editorState info))
          else NoUpdate
      end
  | HandleMouseMove info =>
      match coordinate info with
      | None => NoUpdate
      | Some _ => SetState (fst (handleMouseMove editorState info))
      end
  | SetAlignment a =>
      UpdateState (fun prevState => fst (setAlignment prevState a))
  end.

(** The state of the last render, which the current handlers read, and
    the latest state set. *)
Record t : Type := mk {
  rendered : State.t;
  latest : State.t
}.

(** A handler is invoked, or the component renders again. *)
Inductive Step : Type :=
| Invoke (e : Event)
| Render.

Definition step (rt : t) (st : Step) : t :=
  match st with
  | Render => mk (latest rt) (latest rt)
  | Invoke e =>
      match update (rendered rt) e with
      | SetState s => mk (rendered rt) s
      | UpdateState f => mk (rendered rt) (f (latest rt))
      | NoUpdate => rt
      end
  end.

Definition steps (rt : t) (l : list Step) : t := fold_left step l rt.

(** A component that has rendered its latest state. *)
Definition settled (s : State.t) : t := mk s s.

(** The schedule in which the component renders after every event. *)
Definition renderedAfterEach (events : list Event) : list Step :=
  flat_map (fun e => [Invoke e; Render]) events.

End HookRuntime.

(* ================================================================= *)
(** * Properties *)

(* ================================================================= *)
(** ** Arithmetic of the number model *)

Section NumberFacts.

Lemma this_num (z : Z) : this (num z) = inject_Z z.
Proof.
  unfold num, Q2Qc. cbn [this]. apply Qred_identity.
  simpl. apply Z.gcd_1_r.
Qed.

Lemma this_plus (x y : Qc) : (this (x + y) == this x + this y)%Q.
Proof. unfold Qcplus, Q2Qc. cbn [this]. apply Qred_correct. Qed.

Lemma this_mult (x y : Qc) : (this (x * y) == this x * this y)%Q.
Proof. unfold Qcmult, Q2Qc. cbn [this]. apply Qred_correct. Qed.

Lemma this_opp (x : Qc) : (this (- x) == - this x)%Q.
Proof. unfold Qcopp, Q2Qc. cbn [this]. apply Qred_correct. Qed.

Lemma this_minus (x y : Qc) : (this (x - y) == this x - this y)%Q.
Proof. unfold Qcminus. rewrite this_plus, this_opp. reflexivity. Qed.

Lemma this_div (x y : Qc) : (this (x / y) == this x / this y)%Q.
Proof.
  unfold Qcdiv, Qcinv. rewrite this_mult. unfold Q2Qc. cbn [this].
  rewrite Qred_correct. reflexivity.
Qed.

Lemma this_360 : this (num 360) = (360 # 1)%Q.
Proof. reflexivity. Qed.

Lemma this_div360 (n : Qc) : (this (n / num 360) == this n * (1 # 360))%Q.
Proof. rewrite this_div, this_num. reflexivity. Qed.

Lemma this_rem (n d : Qc) :
  (this (JsNum.rem n d) == this n - inject_Z (trunc (n / d)) * this d)%Q.
Proof.
  unfold JsNum.rem. rewrite this_minus, this_mult, this_num. reflexivity.
Qed.

(** Truncation is the floor of a non-negative number and the ceiling of a
    non-positive one. *)
Lemma trunc_floor (x : Qc) : 0 <= x -> trunc x = Qfloor x.
Proof.
  unfold Qcle, Qle, trunc, Qfloor. cbn [this Q2Qc].
  destruct (this x) as [n d]. simpl.
  intros H. apply Z.quot_div_nonneg; lia.
Qed.

Lemma trunc_ceiling (x : Qc) : x <= 0 -> trunc x = Qceiling x.
Proof.
  unfold Qcle, Qle, trunc, Qceiling, Qfloor. cbn [this Q2Qc].
  destruct (this x) as [n d]. simpl. intros H.
  rewrite <- (Z.opp_involutive n) at 1. rewrite Z.quot_opp_l by lia.
  rewrite Z.quot_div_nonneg by lia. reflexivity.
Qed.

Lemma trunc_nonneg (x : Qc) :
  0 <= x -> (inject_Z (trunc x) <= x < inject_Z (trunc x) + 1)%Q.
Proof.
  intros H. rewrite (trunc_floor x H). split.
  - apply Qfloor_le.
  - pose proof (Qlt_floor x) as L. rewrite inject_Z_plus in L. exact L.
Qed.

Lemma trunc_nonpos (x : Qc) :
  x <= 0 -> (inject_Z (trunc x) - 1 < x <= inject_Z (trunc x))%Q.
Proof.
  intros H. rewrite (trunc_ceiling x H). split.
  - pose proof (Qceiling_lt x) as L. unfold Z.sub in L.
    rewrite inject_Z_plus, inject_Z_opp in L.
    change (inject_Z 1) with 1%Q in L. lra.
  - apply Qle_ceiling.
Qed.

(** [n % 360] keeps the sign of [n] and is smaller than 360 in size. *)
Lemma rem360_nonneg (n : Qc) :
  0 <= n -> 0 <= JsNum.rem n (num 360) /\ JsNum.rem n (num 360) < num 360.
Proof.
  intros H.
  assert (Hq : 0 <= n / num 360).
  { unfold Qcle in *. rewrite this_div360.
    change (this 0) with 0%Q in *. lra. }
  pose proof (trunc_nonneg _ Hq) as [B1 B2]. rewrite this_div360 in B1, B2.
  unfold Qcle, Qclt in *. rewrite this_rem, this_360.
  change (this 0) with 0%Q in *. split; lra.
Qed.

Lemma rem360_nonpos (n : Qc) :
  n <= 0 -> - num 360 < JsNum.rem n (num 360) /\ JsNum.rem n (num 360) <= 0.
Proof.
  intros H.
  assert (Hq : n / num 360 <= 0).
  { unfold Qcle in *. rewrite this_div360.
    change (this 0) with 0%Q in *. lra. }
  pose proof (trunc_nonpos _ Hq) as [B1 B2]. rewrite this_div360 in B1, B2.
  unfold Qcle, Qclt in *. rewrite this_rem, this_opp, this_360.
  change (this 0) with 0%Q in *. split; lra.
Qed.

End NumberFacts.

(* ================================================================= *)
(** ** normalizeAngle *)

Section NormalizeAngleFacts.

Lemma normalizeAngle_range (x : Qc) :
  0 <= normalizeAngle x /\ normalizeAngle x < num 360.
Proof.
  unfold normalizeAngle. apply rem360_nonneg.
  destruct (Qclt_le_dec x 0) as [L | L].
  - apply Qclt_le_weak in L. destruct (rem360_nonpos x L) as [A B].
    unfold Qcle, Qclt in *. rewrite this_plus.
    rewrite this_opp in A. rewrite this_360 in *.
    change (this 0) with 0%Q in *. lra.
  - destruct (rem360_nonneg x L) as [A B].
    unfold Qcle, Qclt in *. rewrite this_plus. rewrite this_360 in *.
    change (this 0) with 0%Q in *. lra.
Qed.


End NormalizeAngleFacts.



Section DoubleFacts.
Import PrimFloat.


End DoubleFacts.

(* ================================================================= *)
(** ** The quadrant classifier *)

Section ClassifierFacts.

Import AlignmentQuadrant.

Lemma leb_le (x y : Qc) : (x <=? y) = true <-> x <= y.
Proof. unfold JsNum.leb, Qcle. apply Qle_bool_iff. Qed.

Lemma geb_le (x y : Qc) : (x >=? y) = true <-> y <= x.
Proof. unfold JsNum.geb, Qcle. apply Qle_bool_iff. Qed.

Lemma leb_gt (x y : Qc) : (x <=? y) = false <-> y < x.
Proof.
  rewrite <- not_true_iff_false, leb_le. split.
  - apply Qcnot_le_lt.
  - intros L H. exact (Qclt_not_le _ _ L H).
Qed.

Lemma geb_lt (x y : Qc) : (x >=? y) = false <-> x < y.
Proof. unfold JsNum.geb. apply (leb_gt y x). Qed.

(** The loop returns at the first quadrant of the list, in order, whose
    range contains the angle. *)
Lemma scanQuadrants_find (r : Qc) (qs : list AlignmentQuadrant.t) :
  scanQuadrants r qs = find (specContains r) qs.
Proof.
  induction qs as [| q qs IH]; [reflexivity |].
  cbn [scanQuadrants find]. unfold specContains.
  destruct (minAngle q >? maxAngle q).
  - destruct ((r >=? minAngle q) || (r <=? maxAngle q));
      [reflexivity | exact IH].
  - change (minAngle q <=? r) with (r >=? minAngle q).
    destruct ((r >=? minAngle q) && (r <=? maxAngle q));
      [reflexivity | exact IH].
Qed.

Lemma quadrants_as_specified : ALIGNMENT_QUADRANTS = specScanOrder.
Proof. reflexivity. Qed.

(** Which quadrants wrap. *)
Lemma wraps_only_forward :
  map (fun q => minAngle q >? maxAngle q) ALIGNMENT_QUADRANTS
  = [true; false; false; false].
Proof. vm_compute. reflexivity. Qed.

(** The scan, with the table and the wrap tests evaluated. *)
Lemma scanQuadrants_table (r : Qc) :
  option_map alignment (scanQuadrants r ALIGNMENT_QUADRANTS) =
  if (r >=? num 315) || (r <=? num 45) then Some CENTRE
  else if (r >=? num 45) && (r <=? num 135) then Some RIGHT
  else if (r >=? num 135) && (r <=? num 225) then Some CENTRE
  else if (r >=? num 225) && (r <=? num 315) then Some LEFT
  else None.
Proof.
  unfold ALIGNMENT_QUADRANTS. cbn [scanQuadrants minAngle maxAngle].
  replace (num 315 >? num 45) with true by (vm_compute; reflexivity).
  replace (num 45 >? num 135) with false by (vm_compute; reflexivity).
  replace (num 135 >? num 225) with false by (vm_compute; reflexivity).
  replace (num 225 >? num 315) with false by (vm_compute; reflexivity).
  repeat match goal with
         | |- context [if ?b then _ else _] => destruct b; cbn [option_map alignment]
         end; reflexivity.
Qed.

(** Every angle is in some quadrant: the loop never runs to its end. *)
Lemma scanQuadrants_total (r : Qc) :
  exists q, scanQuadrants r ALIGNMENT_QUADRANTS = Some q.
Proof.
  pose proof (scanQuadrants_table r) as T.
  destruct (scanQuadrants r ALIGNMENT_QUADRANTS) as [q |]; [eauto |].
  exfalso. cbn [option_map] in T.
  destruct (r >=? num 315) eqn:A; [discriminate |].
  destruct (r <=? num 45) eqn:B; [discriminate |].
  destruct (r <=? num 135) eqn:C.
  { assert (D : (r >=? num 45) = true).
    { apply geb_le. apply Qclt_le_weak. apply leb_gt. exact B. }
    rewrite D in T. discriminate. }
  destruct (r <=? num 225) eqn:D.
  { assert (E : (r >=? num 135) = true).
    { apply geb_le. apply Qclt_le_weak. apply leb_gt. exact C. }
    rewrite E in T. cbn in T. rewrite andb_false_r in T. discriminate. }
  assert (E : (r >=? num 225) = true).
  { apply geb_le. apply Qclt_le_weak. apply leb_gt. exact D. }
  assert (F : (r <=? num 315) = true).
  { apply leb_le. apply Qclt_le_weak. apply geb_lt. exact A. }
  rewrite E, F in T. cbn in T. rewrite !andb_false_r in T. discriminate.
Qed.

End ClassifierFacts.

(** Closed facts about concrete numbers and grid points. *)
Ltac qc_eq := apply Qc_is_canon; vm_compute; reflexivity.
Ltac qc_order := vm_compute; first [reflexivity | discriminate].
Ltac point_neq :=
  let H := fresh in
  intro H;
  first [ apply (f_equal (fun p => Qnum (this (latitude p)))) in H;
          vm_compute in H; discriminate
        | apply (f_equal (fun p => Qnum (this (longitude p)))) in H;
          vm_compute in H; discriminate ].

(** C1.  For distinct axis points and any probe, the relative bearing is
    [normalizeAngle (bearing (second, probe) - bearing (first, second))],
    the probe bearing being taken from the second axis point, and the
    result is the alignment of the first quadrant, in the order
    CENTER_FORWARD, RIGHT, CENTER_BACKWARD, LEFT, whose range contains it
    (inclusive bounds; the wrapping quadrant by [>= min OR <= max]); both
    CENTER quadrants carry CENTRE. *)
Theorem C1_alignment_is_first_quadrant_containing_relative_bearing :
  forall (G : Geolib) (firstPoint secondPoint probe : Point),
    firstPoint <> secondPoint ->
    let relative :=
      normalizeAngle (calculateBearing secondPoint probe
                      - calculateBearing firstPoint secondPoint) in
    relativeBearing firstPoint secondPoint probe = relative
    /\ specClassify relative
       = Some (determineAlignmentFromMousePosition firstPoint secondPoint probe)
    /\ (forall q, In q ALIGNMENT_QUADRANTS ->
          AlignmentQuadrant.name q = "CENTER_FORWARD"%string
          \/ AlignmentQuadrant.name q = "CENTER_BACKWARD"%string ->
          AlignmentQuadrant.alignment q = CENTRE).
Proof.
  intros G f s m _ relative. split; [reflexivity | split].
  - unfold specClassify, determineAlignmentFromMousePosition.
    change (relativeBearing f s m) with relative.
    rewrite <- quadrants_as_specified, <- scanQuadrants_find.
    destruct (scanQuadrants_total relative) as [q E]. rewrite E. reflexivity.
  - intros q Hin Hname. cbn in Hin.
    destruct Hin as [<- | [<- | [<- | [<- | []]]]]; cbn in Hname |- *;
      solve [reflexivity | destruct Hname; discriminate].
Qed.

Lemma C1_witness :
  GridGeolib.pt 0 0 <> GridGeolib.pt 1 0
  /\ specClassify
       (normalizeAngle
          (@calculateBearing GridGeolib.geolib
             (GridGeolib.pt 1 0) (GridGeolib.pt 1 1)
           - @calculateBearing GridGeolib.geolib
               (GridGeolib.pt 0 0) (GridGeolib.pt 1 0)))
     = Some (@determineAlignmentFromMousePosition GridGeolib.geolib
               (GridGeolib.pt 0 0) (GridGeolib.pt 1 0) (GridGeolib.pt 1 1)).
Proof.
  assert (N : GridGeolib.pt 0 0 <> GridGeolib.pt 1 0) by point_neq.
  split; [exact N |].
  exact (proj1 (proj2
    (C1_alignment_is_first_quadrant_containing_relative_bearing
       GridGeolib.geolib (GridGeolib.pt 0 0) (GridGeolib.pt 1 0)
       (GridGeolib.pt 1 1) N))).
Defined.

(** C6.  Quadrant bounds are inclusive at both ends: each of 45, 135, 225
    and 315 lies in exactly two quadrants, and a probe whose relative
    bearing is exactly that value gets the alignment of the one tested
    first: 45 gives CENTRE, 135 RIGHT, 225 CENTRE, 315 CENTRE. *)
Theorem C6_shared_boundary_goes_to_first_tested_quadrant :
  forall (G : Geolib) (firstPoint secondPoint probe : Point)
         (b : Z) (a : OrbitAreaAlignmentEnum),
    In (b, a) sharedBoundaries ->
    relativeBearing firstPoint secondPoint probe = num b ->
    determineAlignmentFromMousePosition firstPoint secondPoint probe = a
    /\ exists q1 q2,
         filter (specContains (num b)) ALIGNMENT_QUADRANTS = [q1; q2]
         /\ AlignmentQuadrant.alignment q1 = a.
Proof.
  intros G f s m b a Hin Hrel.
  unfold determineAlignmentFromMousePosition. rewrite Hrel.
  cbn in Hin.
  destruct Hin as [E | [E | [E | [E | []]]]]; inversion E; subst b a; clear E.
  - split; [vm_compute; reflexivity |].
    exists (AlignmentQuadrant.mk "CENTER_FORWARD" (num 315) (num 45) CENTRE),
           (AlignmentQuadrant.mk "RIGHT" (num 45) (num 135) RIGHT).
    split; [vm_compute; reflexivity | reflexivity].
  - split; [vm_compute; reflexivity |].
    exists (AlignmentQuadrant.mk "RIGHT" (num 45) (num 135) RIGHT),
           (AlignmentQuadrant.mk "CENTER_BACKWARD" (num 135) (num 225) CENTRE).
    split; [vm_compute; reflexivity | reflexivity].
  - split; [vm_compute; reflexivity |].
    exists (AlignmentQuadrant.mk "CENTER_BACKWARD" (num 135) (num 225) CENTRE),
           (AlignmentQuadrant.mk "LEFT" (num 225) (num 315) LEFT).
    split; [vm_compute; reflexivity | reflexivity].
  - split; [vm_compute; reflexivity |].
    exists (AlignmentQuadrant.mk "CENTER_FORWARD" (num 315) (num 45) CENTRE),
           (AlignmentQuadrant.mk "LEFT" (num 225) (num 315) LEFT).
    split; [vm_compute; reflexivity | reflexivity].
Qed.

(** An axis pointing north on the grid, probed in the four diagonal
    directions from its second point. *)
Lemma C6_witness :
  (relativeBearing (G := GridGeolib.geolib)
     (GridGeolib.pt 0 0) (GridGeolib.pt 1 0) (GridGeolib.pt 2 1) = num 45
   /\ determineAlignmentFromMousePosition (G := GridGeolib.geolib)
        (GridGeolib.pt 0 0) (GridGeolib.pt 1 0) (GridGeolib.pt 2 1) = CENTRE)
  /\ (relativeBearing (G := GridGeolib.geolib)
        (GridGeolib.pt 0 0) (GridGeolib.pt 1 0) (GridGeolib.pt 0 1) = num 135
      /\ determineAlignmentFromMousePosition (G := GridGeolib.geolib)
           (GridGeolib.pt 0 0) (GridGeolib.pt 1 0) (GridGeolib.pt 0 1) = RIGHT)
  /\ (relativeBearing (G := GridGeolib.geolib)
        (GridGeolib.pt 0 0) (GridGeolib.pt 1 0) (GridGeolib.pt 0 (-1)) = num 225
      /\ determineAlignmentFromMousePosition (G := GridGeolib.geolib)
           (GridGeolib.pt 0 0) (GridGeolib.pt 1 0) (GridGeolib.pt 0 (-1)) = CENTRE)
  /\ (relativeBearing (G := GridGeolib.geolib)
        (GridGeolib.pt 0 0) (GridGeolib.pt 1 0) (GridGeolib.pt 2 (-1)) = num 315
      /\ determineAlignmentFromMousePosition (G := GridGeolib.geolib)
           (GridGeolib.pt 0 0) (GridGeolib.pt 1 0) (GridGeolib.pt 2 (-1)) = CENTRE).
Proof.
  split; [| split; [| split]]; (split; [qc_eq |]).
  - refine (proj1 (C6_shared_boundary_goes_to_first_tested_quadrant
                     GridGeolib.geolib _ _ _ 45%Z CENTRE _ _));
      [cbn; auto | qc_eq].
  - refine (proj1 (C6_shared_boundary_goes_to_first_tested_quadrant
                     GridGeolib.geolib _ _ _ 135%Z RIGHT _ _));
      [cbn; auto | qc_eq].
  - refine (proj1 (C6_shared_boundary_goes_to_first_tested_quadrant
                     GridGeolib.geolib _ _ _ 225%Z CENTRE _ _));
      [cbn; auto | qc_eq].
  - refine (proj1 (C6_shared_boundary_goes_to_first_tested_quadrant
                     GridGeolib.geolib _ _ _ 315%Z CENTRE _ _));
      [cbn; auto | qc_eq].
Defined.

(** C7.  Every relative bearing of [[0, 360)] lies in at least one of the
    four quadrants, so the scan returns from inside the loop, with a
    quadrant of the table whose range contains the bearing; as the relative
    bearing the classifier computes always lies in that interval, its
    final [return CENTRE] after the loop is never reached. *)
Theorem C7_quadrants_cover_the_circle :
  forall (G : Geolib) (firstPoint secondPoint probe : Point) (r : Qc),
    0 <= r -> r < num 360 ->
    (exists q,
        scanQuadrants r ALIGNMENT_QUADRANTS = Some q
        /\ In q ALIGNMENT_QUADRANTS
        /\ specContains r q = true)
    /\ (exists q,
          scanQuadrants (relativeBearing firstPoint secondPoint probe)
            ALIGNMENT_QUADRANTS = Some q
          /\ determineAlignmentFromMousePosition firstPoint secondPoint probe
             = AlignmentQuadrant.alignment q).
Proof.
  intros G f s m r _ _. split.
  - destruct (scanQuadrants_total r) as [q E]. exists q.
    split; [exact E |]. rewrite scanQuadrants_find in E.
    apply find_some in E. exact E.
  - destruct (scanQuadrants_total (relativeBearing f s m)) as [q E].
    exists q. split; [exact E |].
    unfold determineAlignmentFromMousePosition. rewrite E. reflexivity.
Qed.

Lemma C7_witness :
  0 <= num 100 /\ num 100 < num 360
  /\ exists q,
       scanQuadrants (num 100) ALIGNMENT_QUADRANTS = Some q
       /\ In q ALIGNMENT_QUADRANTS
       /\ specContains (num 100) q = true.
Proof.
  assert (A : 0 <= num 100) by qc_order.
  assert (B : num 100 < num 360) by qc_order.
  split; [exact A | split; [exact B |]].
  exact (proj1 (C7_quadrants_cover_the_circle GridGeolib.geolib
                  (GridGeolib.pt 0 0) (GridGeolib.pt 1 0) (GridGeolib.pt 1 1)
                  (num 100) A B)).
Defined.

(** With the axis due north, a probe due east of the second point is on
    the RIGHT, one due west on the LEFT, and one due north or south is
    CENTRE. *)
Example axis_north_compass :
  forall (G : Geolib) (firstPoint secondPoint probe : Point),
    calculateBearing firstPoint secondPoint = num 0 ->
    (calculateBearing secondPoint probe = num 90 ->
     determineAlignmentFromMousePosition firstPoint secondPoint probe = RIGHT)
    /\ (calculateBearing secondPoint probe = num 270 ->
        determineAlignmentFromMousePosition firstPoint secondPoint probe = LEFT)
    /\ (calculateBearing secondPoint probe = num 0 ->
        determineAlignmentFromMousePosition firstPoint secondPoint probe = CENTRE)
    /\ (calculateBearing secondPoint probe = num 180 ->
        determineAlignmentFromMousePosition firstPoint secondPoint probe = CENTRE).
Proof.
  intros G f s m Haxis.
  unfold determineAlignmentFromMousePosition, relativeBearing.
  rewrite Haxis.
  split; [| split; [| split]]; intros ->; vm_compute; reflexivity.
Qed.

(* ================================================================= *)
(** ** The racetrack polygon *)

Section PolygonFacts.
Context {G : Geolib}.

Lemma fold_left_push {A B : Type} (f : B -> A) (l : list B) (acc : list A) :
  fold_left (fun a i => a ++ [f i]) l acc = acc ++ map f l.
Proof.
  revert acc. induction l as [| x l IH]; intros acc; cbn [fold_left map].
  - symmetry. apply app_nil_r.
  - rewrite IH, <- app_assoc. reflexivity.
Qed.

Lemma pushCap_app (center : Point) (radius startAngle angleStep : Qc)
      (pts : list Point) :
  pushCap center radius startAngle angleStep pts
  = pts ++ capPoints center radius startAngle angleStep.
Proof.
  unfold pushCap, for_upto, capPoints.
  apply (fold_left_push
           (fun i => calculateDestinationPoint center
                       (normalizeAngle (startAngle + of_nat i * angleStep))
                       radius)).
Qed.

Lemma capPoints_length (center : Point) (radius startAngle angleStep : Qc) :
  List.length (capPoints center radius startAngle angleStep) = S segments.
Proof. unfold capPoints. rewrite length_map, length_seq. reflexivity. Qed.


Lemma point_eta (p : Point) :
  {| latitude := latitude p; longitude := longitude p |} = p.
Proof. destruct p. reflexivity. Qed.

(** The ring is the first cap, the second cap, and the first point
    again. *)
Lemma generateOrbitAreaPolygon_shape
      (firstPoint secondPoint : Point) (width : Qc) (alignment : string) :
  let bearing := calculateBearing firstPoint secondPoint in
  let radius := width / num 2 in
  let c := orbitAreaCenterline firstPoint secondPoint width alignment in
  let startAngle := normalizeAngle (bearing + num 90) in
  let endAngle := normalizeAngle (bearing - num 90) in
  let angleStep :=
    (adjustedEnd startAngle endAngle - startAngle) / of_nat segments in
  let p0 := calculateDestinationPoint (fst c)
              (normalizeAngle (startAngle + of_nat 0 * angleStep)) radius in
  generateOrbitAreaPolygon firstPoint secondPoint width alignment
  = capPoints (fst c) radius startAngle angleStep
    ++ capPoints (snd c) radius endAngle angleStep
    ++ [p0].
Proof.
  intros bearing radius c startAngle endAngle angleStep p0.
  subst p0 angleStep. unfold adjustedEnd. subst startAngle endAngle c radius bearing.
  unfold generateOrbitAreaPolygon.
  rewrite !pushCap_app. rewrite app_nil_l.
  unfold capPoints at 1 3. rewrite <- !cons_seq.
  cbn [map app]. rewrite point_eta. rewrite <- app_assoc. reflexivity.
Qed.

End PolygonFacts.

Section ComparisonFacts.

Lemma gtb_lt (x y : Qc) : (x >? y) = true <-> y < x.
Proof.
  unfold JsNum.gtb. rewrite negb_true_iff. apply (leb_gt x y).
Qed.

Lemma gtb_le (x y : Qc) : (x >? y) = false <-> x <= y.
Proof.
  unfold JsNum.gtb. rewrite negb_false_iff. apply (leb_le x y).
Qed.

End ComparisonFacts.

(** C4.  For any two points, any positive width and any alignment string,
    the generated sequence is a closed ring: it starts and ends with the
    same point and has [2 * (segments + 1) + 1 = 43] points, the number of
    segments per cap being the constant 20 whatever the radius and the
    distance between the points. *)
Theorem C4_polygon_is_a_closed_ring_of_43_points :
  forall (G : Geolib) (firstPoint secondPoint : Point) (width : Qc)
         (alignment : string),
    0 < width ->
    let ring := generateOrbitAreaPolygon firstPoint secondPoint width alignment in
    List.length ring = (2 * (segments + 1) + 1)%nat
    /\ List.length ring = 43%nat
    /\ segments = 20%nat
    /\ exists p middle, ring = p :: middle ++ [p].
Proof.
  intros G f s width alignment _ ring. subst ring.
  rewrite generateOrbitAreaPolygon_shape.
  split; [| split; [| split]].
  - rewrite !length_app, !capPoints_length. reflexivity.
  - rewrite !length_app, !capPoints_length. reflexivity.
  - reflexivity.
  - unfold capPoints at 1. cbn [seq map app]. rewrite app_assoc.
    eexists. eexists. reflexivity.
Qed.

Lemma C4_witness :
  0 < num 200
  /\ List.length
       (generateOrbitAreaPolygon (G := GridGeolib.geolib)
          (GridGeolib.pt 0 0) (GridGeolib.pt 1 0) (num 200)
          (alignmentValue LEFT)) = 43%nat.
Proof.
  assert (W : 0 < num 200) by qc_order.
  split; [exact W |].
  exact (proj1 (proj2
    (C4_polygon_is_a_closed_ring_of_43_points GridGeolib.geolib
       (GridGeolib.pt 0 0) (GridGeolib.pt 1 0) (num 200)
       (alignmentValue LEFT) W))).
Defined.


(* ================================================================= *)
(** ** The editor layer *)

Section EditorFacts.
Context {G : Geolib}.

Import OrbitAreaEditor.

Lemma or_zero_some (x : Qc) : or_zero (Some x) = x.
Proof.
  unfold or_zero. destruct (Qc_eq_dec x 0) as [E | _];
    [symmetry; exact E | reflexivity].
Qed.

(** The point a click handler of the layer builds from a resolved pick. *)
Lemma pickedPoint_pickAt (p : Point) :
  {| longitude := or_zero (nth_error [longitude p; latitude p] 0);
     latitude := or_zero (nth_error [longitude p; latitude p] 1) |} = p.
Proof. cbn [nth_error]. rewrite !or_zero_some. apply point_eta. Qed.

(** The finalising click, whatever set [_currentAlignment] before. *)
Lemma onClick_width_selection
      (this : Layer) (fp sp p : Point) :
  let es := editorState (props this) in
  EditorState.mode es = WIDTH_SELECTION ->
  EditorState.firstPoint es = Some fp ->
  EditorState.secondPoint es = Some sp ->
  onStateChange (props this) = true ->
  onClick this (pickAt p)
  = mkOutcome this
      ((if onOrbitAreaComplete (props this)
        then [OrbitAreaComplete
                (OrbitArea.mk fp sp (num 2 * calculateDistance sp p)
                   (_currentAlignment this))]
        else [])
       ++ [StateChange
             (EditorState.mk INACTIVE None None None None
                (EditorState.alignment es))])
      true.
Proof.
  intros es Hm Hf Hs Hcb. unfold onClick. fold es.
  rewrite Hcb, Hm, Hf, Hs. cbn [negb pickAt coordinate].
  rewrite pickedPoint_pickAt, (Qcmult_comm (calculateDistance sp p)).
  reflexivity.
Qed.

(** A hover during width selection. *)
Lemma onHover_width_selection
      (this : Layer) (fp sp m : Point) :
  let es := editorState (props this) in
  EditorState.mode es = WIDTH_SELECTION ->
  EditorState.firstPoint es = Some fp ->
  EditorState.secondPoint es = Some sp ->
  onStateChange (props this) = true ->
  onHover this (pickAt m)
  = mkOutcome
      (mkLayer (props this) (determineAlignmentFromMousePosition fp sp m))
      [StateChange
         (EditorState.mk WIDTH_SELECTION (Some fp) (Some sp)
            (EditorState.width es) (Some m) (EditorState.alignment es))]
      true.
Proof.
  intros es Hm Hf Hs Hcb. unfold onHover. fold es.
  rewrite Hcb, Hm, Hf, Hs.
  cbn [negb pickAt coordinate nth_error nullish_zero].
  rewrite point_eta. reflexivity.
Qed.

End EditorFacts.

(** C2.  In WIDTH_SELECTION with both points placed and [onStateChange]
    provided, a click at [p] calls [onOrbitAreaComplete] (when provided)
    exactly once, with the OrbitArea of the two placed points, of width
    [2 * calculateDistance (secondPoint, p)] and of the alignment the last
    WIDTH_SELECTION hover (at [m]) computed, which does not depend on [p];
    the same holds when the host has applied that hover's state change
    before the click, on the same layer object or on a newly constructed
    one.  The click then asks for the reset state: mode
    INACTIVE, no points, no width, no mouse position.  In general the
    alignment emitted is the stored [_currentAlignment]. *)
Theorem C2_width_click_emits_area_with_hover_alignment_and_resets :
  forall (G : Geolib) (this : OrbitAreaEditor.Layer) (fp sp m p : Point),
    let es := OrbitAreaEditor.editorState (OrbitAreaEditor.props this) in
    EditorState.mode es = WIDTH_SELECTION ->
    EditorState.firstPoint es = Some fp ->
    EditorState.secondPoint es = Some sp ->
    OrbitAreaEditor.onStateChange (OrbitAreaEditor.props this) = true ->
    let complete :=
      OrbitAreaEditor.onOrbitAreaComplete (OrbitAreaEditor.props this) in
    let hover := OrbitAreaEditor.onHover this (pickAt m) in
    let hovered := OrbitAreaEditor.layer hover in
    let moved :=
      EditorState.mk WIDTH_SELECTION (Some fp) (Some sp)
        (EditorState.width es) (Some m) (EditorState.alignment es) in
    let refreshed :=
      OrbitAreaEditor.setProps hovered
        (OrbitAreaEditor.mkProps moved true complete) in
    let recreated :=
      OrbitAreaEditor.updateState
        (OrbitAreaEditor.create
           (OrbitAreaEditor.mkProps moved true complete)) in
    let area (a : OrbitAreaAlignmentEnum) :=
      OrbitArea.mk fp sp (num 2 * calculateDistance sp p) a in
    let reset :=
      EditorState.mk INACTIVE None None None None (EditorState.alignment es) in
    let expected (a : OrbitAreaAlignmentEnum) :=
      (if complete then [OrbitAreaComplete (area a)] else [])
      ++ [StateChange reset] in
    OrbitAreaEditor.calls hover = [StateChange moved]
    /\ OrbitAreaEditor.calls (OrbitAreaEditor.onClick hovered (pickAt p))
       = expected (determineAlignmentFromMousePosition fp sp m)
    /\ OrbitAreaEditor.calls (OrbitAreaEditor.onClick refreshed (pickAt p))
       = expected (determineAlignmentFromMousePosition fp sp m)
    /\ OrbitAreaEditor.calls (OrbitAreaEditor.onClick recreated (pickAt p))
       = expected (determineAlignmentFromMousePosition fp sp m)
    /\ OrbitAreaEditor.calls (OrbitAreaEditor.onClick this (pickAt p))
       = expected (OrbitAreaEditor._currentAlignment this)
    /\ (forall a,
          completions (expected a) = if complete then [area a] else []).
Proof.
  intros G this fp sp m p es Hm Hf Hs Hcb complete hover hovered moved
         refreshed recreated area reset expected.
  assert (Hh : hover
               = OrbitAreaEditor.mkOutcome
                   (OrbitAreaEditor.mkLayer (OrbitAreaEditor.props this)
                      (determineAlignmentFromMousePosition fp sp m))
                   [StateChange moved] true).
  { apply onHover_width_selection; assumption. }
  split; [| split; [| split; [| split; [| split]]]].
  - rewrite Hh. reflexivity.
  - unfold hovered. rewrite Hh. cbn [OrbitAreaEditor.layer].
    rewrite (onClick_width_selection _ fp sp p); try assumption.
    reflexivity.
  - assert (Hr : refreshed
                 = OrbitAreaEditor.mkLayer
                     (OrbitAreaEditor.mkProps moved true complete)
                     (determineAlignmentFromMousePosition fp sp m)).
    { unfold refreshed, OrbitAreaEditor.setProps, OrbitAreaEditor.updateState.
      cbn [OrbitAreaEditor.props OrbitAreaEditor.editorState moved
           EditorState.mode EditorState.firstPoint EditorState.secondPoint
           EditorState.mousePosition EditorState.alignment].
      destruct (EditorState.alignment es); reflexivity. }
    rewrite Hr.
    rewrite (onClick_width_selection _ fp sp p); try reflexivity.
  - assert (Hr : recreated
                 = OrbitAreaEditor.mkLayer
                     (OrbitAreaEditor.mkProps moved true complete)
                     (determineAlignmentFromMousePosition fp sp m)).
    { unfold recreated, OrbitAreaEditor.create, OrbitAreaEditor.updateState.
      cbn [OrbitAreaEditor.props OrbitAreaEditor.editorState moved
           EditorState.mode EditorState.firstPoint EditorState.secondPoint
           EditorState.mousePosition EditorState.alignment].
      destruct (EditorState.alignment es); reflexivity. }
    rewrite Hr.
    rewrite (onClick_width_selection _ fp sp p); try reflexivity.
  - rewrite (onClick_width_selection _ fp sp p); try assumption.
    reflexivity.
  - intros a. unfold expected. destruct complete; reflexivity.
Qed.

(** Hover east of the second point, then click west of it. *)
Lemma C2_witness :
  let es :=
    OrbitAreaEditor.editorState (OrbitAreaEditor.props gridWidthSelection) in
  EditorState.mode es = WIDTH_SELECTION
  /\ EditorState.firstPoint es = Some (GridGeolib.pt 0 0)
  /\ EditorState.secondPoint es = Some (GridGeolib.pt 1 0)
  /\ OrbitAreaEditor.onStateChange (OrbitAreaEditor.props gridWidthSelection)
     = true
  /\ OrbitAreaEditor.calls
       (OrbitAreaEditor.onClick (G := GridGeolib.geolib)
          (OrbitAreaEditor.layer
             (OrbitAreaEditor.onHover (G := GridGeolib.geolib)
                gridWidthSelection (pickAt (GridGeolib.pt 1 1))))
          (pickAt (GridGeolib.pt 1 (-3))))
     = [ OrbitAreaComplete
           (OrbitArea.mk (GridGeolib.pt 0 0) (GridGeolib.pt 1 0)
              (num 2 * calculateDistance (G := GridGeolib.geolib)
                         (GridGeolib.pt 1 0) (GridGeolib.pt 1 (-3)))
              (determineAlignmentFromMousePosition (G := GridGeolib.geolib)
                 (GridGeolib.pt 0 0) (GridGeolib.pt 1 0) (GridGeolib.pt 1 1)));
         StateChange
           (EditorState.mk INACTIVE None None None None (Some CENTRE)) ].
Proof.
  intros es.
  split; [reflexivity | split; [reflexivity | split; [reflexivity |
    split; [reflexivity |]]]].
  exact (proj1 (proj2
    (C2_width_click_emits_area_with_hover_alignment_and_resets
       GridGeolib.geolib gridWidthSelection
       (GridGeolib.pt 0 0) (GridGeolib.pt 1 0)
       (GridGeolib.pt 1 1) (GridGeolib.pt 1 (-3))
       eq_refl eq_refl eq_refl eq_refl))).
Defined.

(** The alignment delivered in that run is RIGHT, the side of the hover,
    although the click itself is on the left of the axis. *)
Example hover_side_wins :
  map OrbitArea.alignment
    (completions
       (OrbitAreaEditor.calls
          (OrbitAreaEditor.onClick (G := GridGeolib.geolib)
             (OrbitAreaEditor.layer
                (OrbitAreaEditor.onHover (G := GridGeolib.geolib)
                   gridWidthSelection (pickAt (GridGeolib.pt 1 1))))
             (pickAt (GridGeolib.pt 1 (-3))))))
  = [RIGHT]
  /\ determineAlignmentFromMousePosition (G := GridGeolib.geolib)
       (GridGeolib.pt 0 0) (GridGeolib.pt 1 0) (GridGeolib.pt 1 (-3)) = LEFT.
Proof. split; vm_compute; reflexivity. Qed.

(** C3.  A hover with no resolvable coordinate is ignored by the layer and
    by the hook, and so is such a click by the hook; but the layer's
    [onClick] has no such guard: it builds the point (0, 0) from the
    missing coordinate and carries on, placing it as first point, or, in
    width selection, delivering an OrbitArea measured to (0, 0). *)
Theorem C3_layer_click_without_coordinate_is_not_ignored :
  (forall s, UseOrbitAreaEditor.handleMapClick s pickNothing = (s, []))
  /\ (forall s, UseOrbitAreaEditor.handleMouseMove s pickNothing = (s, []))
  /\ (forall (G : Geolib) this,
        OrbitAreaEditor.calls (OrbitAreaEditor.onHover this pickNothing) = []
        /\ OrbitAreaEditor.layer (OrbitAreaEditor.onHover this pickNothing)
           = this)
  /\ (forall G : Geolib,
        OrbitAreaEditor.calls
          (OrbitAreaEditor.onClick awaitingFirstPoint pickNothing)
        = [ StateChange
              (EditorState.mk SECOND_POINT
                 (Some {| latitude := 0; longitude := 0 |})
                 None None None None) ])
  /\ (forall G : Geolib,
        completions
          (OrbitAreaEditor.calls
             (OrbitAreaEditor.onClick gridWidthSelection pickNothing))
        = [ OrbitArea.mk (GridGeolib.pt 0 0) (GridGeolib.pt 1 0)
              (calculateDistance (GridGeolib.pt 1 0)
                 {| latitude := 0; longitude := 0 |} * num 2)
              CENTRE ]).
Proof.
  split; [| split; [| split; [| split]]].
  - intros s. reflexivity.
  - intros s. reflexivity.
  - intros G this. unfold OrbitAreaEditor.onHover.
    destruct (OrbitAreaEditor.onStateChange (OrbitAreaEditor.props this));
      split; reflexivity.
  - intros G. reflexivity.
  - intros G. reflexivity.
Qed.

(* ================================================================= *)
(** ** The hook *)

Section HookFacts.

Import UseOrbitAreaEditor.

Lemma handle_silent (s : State.t) (e : Event) : snd (handle s e) = [].
Proof.
  destruct e as [| | info | info | a]; cbn [handle]; try reflexivity.
  - unfold handleMapClick. destruct (coordinate info); [| reflexivity].
    destruct (State.mode s); try reflexivity.
    destruct (State.firstPoint s); [| reflexivity].
    destruct (State.secondPoint s); reflexivity.
  - unfold handleMouseMove. destruct (coordinate info); reflexivity.
Qed.

Lemma run_silent (events : list Event) :
  forall s, snd (run s events) = [].
Proof.
  induction events as [| e rest IH]; intros s; cbn [run]; [reflexivity |].
  pose proof (handle_silent s e) as He.
  destruct (handle s e) as [s1 calls1]. cbn [snd] in He. subst calls1.
  specialize (IH s1). destruct (run s1 rest) as [s2 calls2].
  cbn [snd] in IH |- *. subst calls2. reflexivity.
Qed.

End HookFacts.

(** C10.  Whatever sequence of startEditing, handleMapClick,
    handleMouseMove, cancelEditing (and setAlignment) events the hook
    handles, from any state, it makes no call at all to the
    [onOrbitAreaComplete] callback it was given; its click in
    WIDTH_SELECTION with both points placed only resets the state to
    INACTIVE (keeping the alignment) and builds no OrbitArea.  On the
    layer's side, a hover delivers nothing, while the finalising click
    delivers the OrbitArea. *)
Theorem C10_hook_never_calls_onOrbitAreaComplete :
  (forall (s : UseOrbitAreaEditor.State.t)
          (events : list UseOrbitAreaEditor.Event),
      snd (UseOrbitAreaEditor.run s events) = []
      /\ completions (snd (UseOrbitAreaEditor.run s events)) = [])
  /\ (forall (s : UseOrbitAreaEditor.State.t) (p fp sp : Point),
        UseOrbitAreaEditor.State.mode s = WIDTH_SELECTION ->
        UseOrbitAreaEditor.State.firstPoint s = Some fp ->
        UseOrbitAreaEditor.State.secondPoint s = Some sp ->
        UseOrbitAreaEditor.handleMapClick s (pickAt p)
        = (UseOrbitAreaEditor.State.mk INACTIVE None None None None
             (UseOrbitAreaEditor.State.alignment s), []))
  /\ (forall (G : Geolib) this info,
        completions
          (OrbitAreaEditor.calls (OrbitAreaEditor.onHover this info)) = [])
  /\ (forall (G : Geolib) (p : Point),
        completions
          (OrbitAreaEditor.calls
             (OrbitAreaEditor.onClick gridWidthSelection (pickAt p)))
        = [ OrbitArea.mk (GridGeolib.pt 0 0) (GridGeolib.pt 1 0)
              (num 2 * calculateDistance (GridGeolib.pt 1 0) p) CENTRE ]).
Proof.
  split; [| split; [| split]].
  - intros s events. rewrite run_silent. split; reflexivity.
  - intros s p fp sp Hm Hf Hs. unfold UseOrbitAreaEditor.handleMapClick.
    cbn [pickAt coordinate]. rewrite Hm, Hf, Hs. reflexivity.
  - intros G this info. unfold OrbitAreaEditor.onHover.
    destruct (OrbitAreaEditor.onStateChange (OrbitAreaEditor.props this));
      [| reflexivity].
    destruct (coordinate info); [| reflexivity].
    cbn [negb].
    destruct (EditorState.mode _); try reflexivity.
    destruct (EditorState.firstPoint _); [| reflexivity].
    destruct (EditorState.secondPoint _); reflexivity.
  - intros G p.
    rewrite (onClick_width_selection gridWidthSelection
               (GridGeolib.pt 0 0) (GridGeolib.pt 1 0) p);
      reflexivity.
Qed.

(** The hook's third click, at (1, -3), from a state in width selection. *)
Lemma C10_witness :
  UseOrbitAreaEditor.State.mode hookWidthSelection = WIDTH_SELECTION
  /\ UseOrbitAreaEditor.State.firstPoint hookWidthSelection
     = Some (GridGeolib.pt 0 0)
  /\ UseOrbitAreaEditor.State.secondPoint hookWidthSelection
     = Some (GridGeolib.pt 1 0)
  /\ UseOrbitAreaEditor.handleMapClick hookWidthSelection
       (pickAt (GridGeolib.pt 1 (-3)))
     = (UseOrbitAreaEditor.State.mk INACTIVE None None None None RIGHT, []).
Proof.
  split; [reflexivity | split; [reflexivity | split; [reflexivity |]]].
  exact (proj1 (proj2 C10_hook_never_calls_onOrbitAreaComplete)
           hookWidthSelection (GridGeolib.pt 1 (-3))
           (GridGeolib.pt 0 0) (GridGeolib.pt 1 0)
           eq_refl eq_refl eq_refl).
Defined.

(** The three-click workflow through the hook: the state returns to
    INACTIVE and nothing is delivered. *)
Example hook_three_clicks :
  forall p1 p2 p3 p4 : Point,
    UseOrbitAreaEditor.run UseOrbitAreaEditor.initialState
      [ UseOrbitAreaEditor.StartEditing;
        UseOrbitAreaEditor.HandleMapClick (pickAt p1);
        UseOrbitAreaEditor.HandleMapClick (pickAt p2);
        UseOrbitAreaEditor.HandleMouseMove (pickAt p3);
        UseOrbitAreaEditor.HandleMapClick (pickAt p4) ]
    = (UseOrbitAreaEditor.State.mk INACTIVE None None None None CENTRE, []).
Proof. intros p1 p2 p3 p4. reflexivity. Qed.

(* ================================================================= *)
(** * Further properties of the code *)

(** Boolean comparisons as order facts, and order facts of [Qc] as facts
    of [Q] for [lra]. *)
Ltac bool2order :=
  repeat match goal with
         | H : (_ || _) = true |- _ => apply orb_true_iff in H; destruct H as [H | H]
         | H : (_ || _) = false |- _ =>
             apply orb_false_iff in H; let H' := fresh H in destruct H as [H H']
         | H : (_ && _) = true |- _ =>
             apply andb_true_iff in H; let H' := fresh H in destruct H as [H H']
         | H : (_ && _) = false |- _ => apply andb_false_iff in H; destruct H as [H | H]
         | H : (_ >=? _) = true |- _ => apply geb_le in H
         | H : (_ >=? _) = false |- _ => apply geb_lt in H
         | H : (_ <=? _) = true |- _ => apply leb_le in H
         | H : (_ <=? _) = false |- _ => apply leb_gt in H
         | H : (_ >? _) = true |- _ => apply gtb_lt in H
         | H : (_ >? _) = false |- _ => apply gtb_le in H
         end.

Ltac qc2q :=
  unfold Qcle, Qclt in *;
  repeat rewrite this_num in *;
  unfold inject_Z in *.

(* ================================================================= *)
(** ** The classifiers, continued *)

Section ClassifierRanges.

(** The alignment the scan gives to an angle, by explicit ranges. *)
Lemma scan_alignment_ranges (r : Qc) :
  match option_map AlignmentQuadrant.alignment
          (scanQuadrants r ALIGNMENT_QUADRANTS) with
  | Some RIGHT => num 45 < r /\ r <= num 135
  | Some LEFT => num 225 < r /\ r < num 315
  | Some CENTRE =>
      r <= num 45 \/ (num 135 < r /\ r <= num 225) \/ num 315 <= r
  | None => False
  end.
Proof.
  rewrite scanQuadrants_table.
  destruct ((r >=? num 315) || (r <=? num 45)) eqn:A.
  { bool2order; qc2q; [right; right | left]; lra. }
  destruct ((r >=? num 45) && (r <=? num 135)) eqn:B.
  { bool2order; qc2q; split; lra. }
  destruct ((r >=? num 135) && (r <=? num 225)) eqn:C.
  { bool2order; qc2q; right; left; split; lra. }
  destruct ((r >=? num 225) && (r <=? num 315)) eqn:D.
  { bool2order; qc2q; split; lra. }
  bool2order; qc2q; lra.
Qed.

End ClassifierRanges.

Lemma determine_scan
  (G : Geolib) (firstPoint secondPoint mousePoint : Point) :
  option_map AlignmentQuadrant.alignment
    (scanQuadrants (relativeBearing firstPoint secondPoint mousePoint)
       ALIGNMENT_QUADRANTS)
  = Some (determineAlignmentFromMousePosition firstPoint secondPoint mousePoint).
Proof.
  unfold determineAlignmentFromMousePosition.
  destruct (scanQuadrants_total
              (relativeBearing firstPoint secondPoint mousePoint)) as [q E].
  rewrite E. reflexivity.
Qed.

(** X1.  The mouse classifier by explicit ranges of the relative bearing
    [r]: RIGHT exactly when [45 < r <= 135], LEFT exactly when
    [225 < r < 315], CENTRE in every other case.  So RIGHT owns one of its
    two boundaries and LEFT none. *)
Theorem X1_mouse_alignment_by_ranges :
  forall (G : Geolib) (firstPoint secondPoint mousePoint : Point),
    let r := relativeBearing firstPoint secondPoint mousePoint in
    let a := determineAlignmentFromMousePosition firstPoint secondPoint mousePoint in
    (a = RIGHT <-> num 45 < r /\ r <= num 135)
    /\ (a = LEFT <-> num 225 < r /\ r < num 315)
    /\ (a = CENTRE <->
        r <= num 45 \/ (num 135 < r /\ r <= num 225) \/ num 315 <= r).
Proof.
  intros G firstPoint secondPoint mousePoint r a.
  pose proof (scan_alignment_ranges r) as R.
  assert (Ha : option_map AlignmentQuadrant.alignment
                 (scanQuadrants r ALIGNMENT_QUADRANTS) = Some a).
  { unfold a, determineAlignmentFromMousePosition. fold r.
    destruct (scanQuadrants_total r) as [q E]. rewrite E. reflexivity. }
  rewrite Ha in R. clear Ha.
  destruct a; (split; [| split]); split; intros H;
    try discriminate; try reflexivity; try exact R;
    exfalso; qc2q; lra.
Qed.

(** X2.  Off the four boundaries the classifier is mirror symmetric: a
    probe whose relative bearing is [360 - r] gets the mirrored alignment
    of a probe at relative bearing [r] (LEFT and RIGHT exchanged). *)
Theorem X2_classifier_mirror_symmetry :
  forall (G : Geolib) (firstPoint secondPoint probe mirrored : Point),
    let r := relativeBearing firstPoint secondPoint probe in
    r <> num 45 -> r <> num 135 -> r <> num 225 -> r <> num 315 ->
    relativeBearing firstPoint secondPoint mirrored = num 360 - r ->
    determineAlignmentFromMousePosition firstPoint secondPoint mirrored
    = mirrorAlignment
        (determineAlignmentFromMousePosition firstPoint secondPoint probe).
Proof.
  intros G f s m m' r N45 N135 N225 N315 Hm.
  pose proof (scan_alignment_ranges r) as R1.
  pose proof (scan_alignment_ranges (num 360 - r)) as R2.
  unfold r in R1. rewrite determine_scan in R1. fold r in R1.
  rewrite <- Hm in R2. rewrite determine_scan in R2. rewrite Hm in R2.
  assert (E : forall z : Z, r <> num z -> ~ (this r == z # 1)%Q).
  { intros z Hz Hq. apply Hz. apply Qc_is_canon. rewrite this_num. exact Hq. }
  apply E in N45, N135, N225, N315.
  assert (S : (this (num 360 - r) == (360 # 1) - this r)%Q).
  { rewrite this_minus, this_num. reflexivity. }
  destruct (determineAlignmentFromMousePosition f s m),
           (determineAlignmentFromMousePosition f s m');
    cbn [mirrorAlignment]; try reflexivity; exfalso;
    qc2q; rewrite S in R2; lra.
Qed.

Lemma X2_witness :
  let r :=
    relativeBearing (G := GridGeolib.geolib)
      (GridGeolib.pt 0 0) (GridGeolib.pt 1 0) (GridGeolib.pt 1 1) in
  r <> num 45 /\ r <> num 135 /\ r <> num 225 /\ r <> num 315
  /\ relativeBearing (G := GridGeolib.geolib)
       (GridGeolib.pt 0 0) (GridGeolib.pt 1 0) (GridGeolib.pt 1 (-1))
     = num 360 - r
  /\ determineAlignmentFromMousePosition (G := GridGeolib.geolib)
       (GridGeolib.pt 0 0) (GridGeolib.pt 1 0) (GridGeolib.pt 1 (-1))
     = mirrorAlignment
         (determineAlignmentFromMousePosition (G := GridGeolib.geolib)
            (GridGeolib.pt 0 0) (GridGeolib.pt 1 0) (GridGeolib.pt 1 1)).
Proof.
  intros r.
  assert (Q : forall z : Z, Qnum (this r) <> Qnum (this (num z)) -> r <> num z).
  { intros z Hz Hr. apply Hz. rewrite Hr. reflexivity. }
  assert (N1 : r <> num 45) by (apply Q; vm_compute; discriminate).
  assert (N2 : r <> num 135) by (apply Q; vm_compute; discriminate).
  assert (N3 : r <> num 225) by (apply Q; vm_compute; discriminate).
  assert (N4 : r <> num 315) by (apply Q; vm_compute; discriminate).
  assert (M : relativeBearing (G := GridGeolib.geolib)
                (GridGeolib.pt 0 0) (GridGeolib.pt 1 0) (GridGeolib.pt 1 (-1))
              = num 360 - r) by qc_eq.
  split; [exact N1 | split; [exact N2 | split; [exact N3 |
    split; [exact N4 | split; [exact M |]]]]].
  exact (X2_classifier_mirror_symmetry GridGeolib.geolib
           (GridGeolib.pt 0 0) (GridGeolib.pt 1 0)
           (GridGeolib.pt 1 1) (GridGeolib.pt 1 (-1)) N1 N2 N3 N4 M).
Defined.

(** X3.  [determineAlignmentFromBearing] never falls through to its
    "DEFAULT" result: it returns the name and the alignment of a quadrant
    of the table, the first one whose range contains the normalised axis
    bearing, and the bearing it reports lies in [[0, 360)]. *)
Theorem X3_bearing_classifier_never_defaults :
  forall (G : Geolib) (firstPoint secondPoint : Point),
    let res := determineAlignmentFromBearing firstPoint secondPoint in
    BearingAlignment.relativeBearing res
    = normalizeAngle (calculateBearing firstPoint secondPoint)
    /\ 0 <= BearingAlignment.relativeBearing res
    /\ BearingAlignment.relativeBearing res < num 360
    /\ BearingAlignment.quadrantName res <> "DEFAULT"%string
    /\ exists q,
         find (specContains (BearingAlignment.relativeBearing res))
           ALIGNMENT_QUADRANTS = Some q
         /\ In q ALIGNMENT_QUADRANTS
         /\ BearingAlignment.quadrantName res = AlignmentQuadrant.name q
         /\ BearingAlignment.alignment res = AlignmentQuadrant.alignment q.
Proof.
  intros G f s res. subst res. unfold determineAlignmentFromBearing.
  set (nb := normalizeAngle (calculateBearing f s)).
  destruct (normalizeAngle_range (calculateBearing f s)) as [R0 R1].
  destruct (scanQuadrants_total nb) as [q E]. rewrite E.
  cbn [BearingAlignment.relativeBearing BearingAlignment.quadrantName
       BearingAlignment.alignment].
  rewrite scanQuadrants_find in E.
  pose proof (find_some _ _ E) as [Hin _].
  split; [reflexivity | split; [exact R0 | split; [exact R1 | split]]].
  - cbn in Hin. destruct Hin as [<- | [<- | [<- | [<- | []]]]];
      cbn; discriminate.
  - exists q. repeat split; assumption || reflexivity.
Qed.

(** X4.  When the axis points due north (bearing 0) the mouse classifier
    is the bearing classifier applied to the segment from the second point
    to the mouse. *)
Theorem X4_mouse_classifier_on_a_north_axis :
  forall (G : Geolib) (firstPoint secondPoint mousePoint : Point),
    calculateBearing firstPoint secondPoint = num 0 ->
    determineAlignmentFromMousePosition firstPoint secondPoint mousePoint
    = BearingAlignment.alignment
        (determineAlignmentFromBearing secondPoint mousePoint).
Proof.
  intros G f s m H.
  unfold determineAlignmentFromMousePosition, determineAlignmentFromBearing,
    relativeBearing.
  rewrite H.
  replace (calculateBearing s m - num 0) with (calculateBearing s m).
  - destruct (scanQuadrants _ ALIGNMENT_QUADRANTS); reflexivity.
  - apply Qc_is_canon. rewrite this_minus, this_num. unfold inject_Z. lra.
Qed.

Lemma X4_witness :
  calculateBearing (G := GridGeolib.geolib)
    (GridGeolib.pt 0 0) (GridGeolib.pt 1 0) = num 0
  /\ determineAlignmentFromMousePosition (G := GridGeolib.geolib)
       (GridGeolib.pt 0 0) (GridGeolib.pt 1 0) (GridGeolib.pt 0 (-1))
     = BearingAlignment.alignment
         (determineAlignmentFromBearing (G := GridGeolib.geolib)
            (GridGeolib.pt 1 0) (GridGeolib.pt 0 (-1))).
Proof.
  assert (H : calculateBearing (G := GridGeolib.geolib)
                (GridGeolib.pt 0 0) (GridGeolib.pt 1 0) = num 0) by qc_eq.
  split; [exact H |].
  exact (X4_mouse_classifier_on_a_north_axis GridGeolib.geolib
           (GridGeolib.pt 0 0) (GridGeolib.pt 1 0) (GridGeolib.pt 0 (-1)) H).
Defined.

(* ================================================================= *)
(** ** geo-utils, continued *)

Section GeoUtilsMore.
Context {G : Geolib}.

Lemma this_Q2Qc (q : Q) : (this (Q2Qc q) == q)%Q.
Proof. unfold Q2Qc. cbn [this]. apply Qred_correct. Qed.

(** The generic semicircle as a list. *)
Lemma generateSemicirclePoints_map
  (center : Point) (radius startBearing endBearing : Qc) (n : nat) :
  generateSemicirclePoints center radius startBearing endBearing n
  = map (fun i =>
           calculateDestinationPoint center
             (normalizeAngle
                (startBearing
                 + of_nat i * ((endBearing - startBearing) / of_nat n)))
             radius)
        (seq 0 (S n)).
Proof.
  unfold generateSemicirclePoints, for_upto.
  rewrite (fold_left_push
             (fun i => calculateDestinationPoint center
                         (normalizeAngle
                            (startBearing
                             + of_nat i
                               * ((endBearing - startBearing) / of_nat n)))
                         radius)).
  reflexivity.
Qed.

Lemma semicircle_nth
  (center : Point) (radius startBearing endBearing : Qc) (n i : nat) :
  (i <= n)%nat ->
  nth_error (generateSemicirclePoints center radius startBearing endBearing n) i
  = Some (calculateDestinationPoint center
            (normalizeAngle
               (startBearing
                + of_nat i * ((endBearing - startBearing) / of_nat n)))
            radius).
Proof.
  intros Hi. rewrite generateSemicirclePoints_map, nth_error_map, nth_error_seq.
  replace (i <? S n)%nat with true by (symmetry; apply Nat.ltb_lt; lia).
  reflexivity.
Qed.


End GeoUtilsMore.

(** X5.  The centerline of a LEFT (RIGHT) racetrack consists of the left
    (right) perpendicular points of the two axis points, taken with
    [calculatePerpendicularPoint] on the axis bearing at distance
    [width / 2]: subtracting 90 and adding -90 are the same operation. *)
Theorem X5_perpendicular_points_and_centerline :
  forall (G : Geolib) (firstPoint secondPoint : Point) (width : Qc),
    orbitAreaCenterline firstPoint secondPoint width (alignmentValue LEFT)
    = (calculatePerpendicularPoint firstPoint
         (calculateBearing firstPoint secondPoint) (width / num 2) false,
       calculatePerpendicularPoint secondPoint
         (calculateBearing firstPoint secondPoint) (width / num 2) false)
    /\ orbitAreaCenterline firstPoint secondPoint width (alignmentValue RIGHT)
       = (calculatePerpendicularPoint firstPoint
            (calculateBearing firstPoint secondPoint) (width / num 2) true,
          calculatePerpendicularPoint secondPoint
            (calculateBearing firstPoint secondPoint) (width / num 2) true).
Proof.
  intros G f s width. split.
  - unfold orbitAreaCenterline, calculatePerpendicularPoint.
    cbn [alignmentValue String.eqb Ascii.eqb Bool.eqb andb].
    replace (calculateBearing f s + num (-90))
      with (calculateBearing f s - num 90).
    + reflexivity.
    + apply Qc_is_canon. rewrite this_minus, this_plus, !this_num.
      unfold inject_Z. lra.
  - reflexivity.
Qed.

(** X6.  With [segments >= 1], [generateSemicirclePoints] returns
    [segments + 1] points, each a projection at [radius] from the center
    on a bearing of [[0, 360)]; the first lies on the normalised start
    bearing. *)
Theorem X6_semicircle_points :
  forall (G : Geolib) (center : Point)
         (radius startBearing endBearing : Qc) (n : nat),
    (1 <= n)%nat ->
    let points :=
      generateSemicirclePoints center radius startBearing endBearing n in
    List.length points = S n
    /\ nth_error points 0
       = Some (calculateDestinationPoint center
                 (normalizeAngle startBearing) radius)
    /\ (forall p, In p points ->
          exists bearing,
            0 <= bearing /\ bearing < num 360
            /\ p = calculateDestinationPoint center bearing radius).
Proof.
  intros G center radius sb eb n Hn points. subst points.
  split; [| split].
  - rewrite generateSemicirclePoints_map, length_map, length_seq. reflexivity.
  - rewrite semicircle_nth by lia. do 3 f_equal.
    change (of_nat 0) with 0. ring.
  - intros p Hp. rewrite generateSemicirclePoints_map in Hp.
    apply in_map_iff in Hp. destruct Hp as [i [<- _]].
    eexists. split; [| split; [| reflexivity]];
      apply normalizeAngle_range.
Qed.

Lemma X6_witness :
  (1 <= 4)%nat
  /\ List.length
       (generateSemicirclePoints (G := GridGeolib.geolib)
          (GridGeolib.pt 0 0) (num 100) (num 350) (num 370) 4) = 5%nat.
Proof.
  assert (H : (1 <= 4)%nat) by lia.
  split; [exact H |].
  exact (proj1 (X6_semicircle_points GridGeolib.geolib (GridGeolib.pt 0 0)
                  (num 100) (num 350) (num 370) 4 H)).
Defined.



(** X8.  Only the two strings "OrbitAreaAlignmentEnum_LEFT" and
    "OrbitAreaAlignmentEnum_RIGHT" move the centerline: with any other
    alignment string the ring is the CENTRE ring around the axis itself. *)
Theorem X8_unknown_alignment_string_means_centre :
  forall (G : Geolib) (firstPoint secondPoint : Point) (width : Qc)
         (alignment : string),
    alignment <> alignmentValue LEFT ->
    alignment <> alignmentValue RIGHT ->
    orbitAreaCenterline firstPoint secondPoint width alignment
    = (firstPoint, secondPoint)
    /\ generateOrbitAreaPolygon firstPoint secondPoint width alignment
       = generateOrbitAreaPolygon firstPoint secondPoint width
           (alignmentValue CENTRE).
Proof.
  intros G f s width alignment HL HR.
  apply String.eqb_neq in HL, HR. cbn [alignmentValue] in HL, HR.
  assert (C : orbitAreaCenterline f s width alignment = (f, s)).
  { unfold orbitAreaCenterline. rewrite HL, HR. reflexivity. }
  split; [exact C |].
  unfold generateOrbitAreaPolygon. rewrite C. reflexivity.
Qed.

Lemma X8_witness :
  "LEFT"%string <> alignmentValue LEFT
  /\ "LEFT"%string <> alignmentValue RIGHT
  /\ generateOrbitAreaPolygon (G := GridGeolib.geolib)
       (GridGeolib.pt 0 0) (GridGeolib.pt 1 0) (num 200) "LEFT"
     = generateOrbitAreaPolygon (G := GridGeolib.geolib)
         (GridGeolib.pt 0 0) (GridGeolib.pt 1 0) (num 200)
         (alignmentValue CENTRE).
Proof.
  assert (HL : "LEFT"%string <> alignmentValue LEFT) by discriminate.
  assert (HR : "LEFT"%string <> alignmentValue RIGHT) by discriminate.
  split; [exact HL | split; [exact HR |]].
  exact (proj2 (X8_unknown_alignment_string_means_centre GridGeolib.geolib
                  (GridGeolib.pt 0 0) (GridGeolib.pt 1 0) (num 200)
                  "LEFT" HL HR)).
Defined.

(** X10.  [convertDistance] scales by a positive factor: for every unit
    it keeps the order of two distances and maps a non-negative distance
    to a non-negative value, and for METERS it returns the distance
    itself. *)
Theorem X10_convertDistance_is_a_positive_scaling :
  forall (a b : Qc) (unit : DistanceUnit),
    a <= b ->
    convertDistance a unit <= convertDistance b unit
    /\ (0 <= a -> 0 <= convertDistance a unit)
    /\ convertDistance a METERS = a.
Proof.
  intros a b unit Hab. unfold convertDistance.
  split; [| split].
  - destruct unit; cbn [DISTANCE_UNIT_CONVERSIONS]; unfold Qcle in *;
      rewrite !this_mult, ?this_num, ?this_Q2Qc; unfold inject_Z; lra.
  - intros Ha.
    destruct unit; cbn [DISTANCE_UNIT_CONVERSIONS]; unfold Qcle in *;
      rewrite !this_mult, ?this_num, ?this_Q2Qc; unfold inject_Z;
      change (this 0) with 0%Q in *; lra.
  - cbn [DISTANCE_UNIT_CONVERSIONS]. apply Qc_is_canon.
    rewrite this_mult, this_num. unfold inject_Z. lra.
Qed.

Lemma X10_witness :
  num 1500 <= num 1852
  /\ convertDistance (num 1500) NAUTICAL_MILES
     <= convertDistance (num 1852) NAUTICAL_MILES.
Proof.
  assert (H : num 1500 <= num 1852) by qc_order.
  split; [exact H |].
  exact (proj1 (X10_convertDistance_is_a_positive_scaling
                  (num 1500) (num 1852) NAUTICAL_MILES H)).
Defined.

(* ================================================================= *)
(** ** Layer identifiers *)

Section LayerIds.

Lemma append_cancel_l (p x y : string) :
  (p ++ x)%string = (p ++ y)%string -> x = y.
Proof.
  induction p as [| c p IH]; cbn [String.append]; intros H.
  - exact H.
  - injection H as H. exact (IH H).
Qed.

Lemma split_no_hyphen (p : string) :
  noHyphen p = true -> splitAtHyphen p = (p, None).
Proof.
  induction p as [| c p IH]; cbn [noHyphen splitAtHyphen]; [reflexivity |].
  intros H. apply andb_true_iff in H. destruct H as [Hc Hp].
  apply negb_true_iff in Hc. rewrite Hc, (IH Hp). reflexivity.
Qed.

Lemma split_with_suffix (p x : string) :
  noHyphen p = true -> splitAtHyphen (p ++ "-" ++ x) = (p, Some x).
Proof.
  induction p as [| c p IH]; cbn [noHyphen splitAtHyphen String.append].
  - intros _. reflexivity.
  - intros H. apply andb_true_iff in H. destruct H as [Hc Hp].
    apply negb_true_iff in Hc. rewrite Hc.
    cbn [String.append] in IH. rewrite (IH Hp). reflexivity.
Qed.

Lemma typeStr_no_hyphen (t : Layers.OrbitLayerType) :
  noHyphen (Layers.toLowerCase (Layers.memberName t)) = true.
Proof. destruct t; vm_compute; reflexivity. Qed.

Lemma layerTypeOfName_typeStr (t : Layers.OrbitLayerType) :
  layerTypeOfName (Layers.toLowerCase (Layers.memberName t)) = Some t.
Proof. destruct t; vm_compute; reflexivity. Qed.

(** What [getLayerId] appends to ["baseId-"]. *)
Lemma getLayerId_tail
  (baseId : string) (t : Layers.OrbitLayerType) (s : option string) :
  exists tail,
    Layers.getLayerId baseId t s = (baseId ++ "-" ++ tail)%string
    /\ splitAtHyphen tail
       = (Layers.toLowerCase (Layers.memberName t), effectiveSuffix s).
Proof.
  pose proof (typeStr_no_hyphen t) as N.
  destruct s as [[| c r] |]; cbn [Layers.getLayerId effectiveSuffix].
  - eexists. split; [reflexivity |]. apply split_no_hyphen. exact N.
  - eexists. split; [reflexivity |]. apply split_with_suffix. exact N.
  - eexists. split; [reflexivity |]. apply split_no_hyphen. exact N.
Qed.

End LayerIds.

(** X11.  Under one base id, [getLayerId] gives different identifiers to
    different layer types and to different suffixes (an empty suffix
    counting as none): equal identifiers come from the same type and the
    same effective suffix. *)
Theorem X11_getLayerId_is_injective_under_a_base :
  forall (baseId : string) (t1 t2 : Layers.OrbitLayerType)
         (s1 s2 : option string),
    Layers.getLayerId baseId t1 s1 = Layers.getLayerId baseId t2 s2 ->
    t1 = t2 /\ effectiveSuffix s1 = effectiveSuffix s2.
Proof.
  intros baseId t1 t2 s1 s2 H.
  destruct (getLayerId_tail baseId t1 s1) as [tail1 [E1 S1]].
  destruct (getLayerId_tail baseId t2 s2) as [tail2 [E2 S2]].
  rewrite E1, E2 in H. apply append_cancel_l in H.
  apply (append_cancel_l "-") in H. subst tail2.
  rewrite S1 in S2. injection S2 as Ht Hs.
  split; [| exact Hs].
  apply (f_equal layerTypeOfName) in Ht.
  rewrite !layerTypeOfName_typeStr in Ht. injection Ht as Ht. exact Ht.
Qed.

Lemma X11_witness :
  Layers.getLayerId "editor" Layers.DEBUG_QUADRANTS (Some ""%string)
  = Layers.getLayerId "editor" Layers.DEBUG_QUADRANTS None
  /\ effectiveSuffix (Some ""%string) = effectiveSuffix None.
Proof.
  assert (H : Layers.getLayerId "editor" Layers.DEBUG_QUADRANTS (Some ""%string)
              = Layers.getLayerId "editor" Layers.DEBUG_QUADRANTS None)
    by reflexivity.
  split; [exact H |].
  exact (proj2 (X11_getLayerId_is_injective_under_a_base
                  "editor" Layers.DEBUG_QUADRANTS Layers.DEBUG_QUADRANTS
                  (Some ""%string) None H)).
Defined.

(* ================================================================= *)
(** ** The hook, continued *)

Section HookMore.

Import UseOrbitAreaEditor.

Lemma run_app (s : State.t) (l1 l2 : list Event) :
  fst (run s (l1 ++ l2)) = fst (run (fst (run s l1)) l2).
Proof.
  revert s. induction l1 as [| e l1 IH]; intros s; cbn [app run fst].
  - reflexivity.
  - destruct (handle s e) as [s1 c1]. specialize (IH s1).
    destruct (run s1 (l1 ++ l2)) as [s2 c2].
    destruct (run s1 l1) as [s3 c3]. cbn [fst] in *. exact IH.
Qed.

Lemma run_cons (s : State.t) (e : Event) (l : list Event) :
  fst (run s (e :: l)) = fst (run (fst (handle s e)) l).
Proof.
  cbn [run]. destruct (handle s e) as [s1 c1]. cbn [fst].
  destruct (run s1 l). reflexivity.
Qed.



(** What a pointer event keeps. *)
Lemma move_keeps (s : State.t) (e : Event) :
  isMove e ->
  State.mode (fst (handle s e)) = State.mode s
  /\ State.firstPoint (fst (handle s e)) = State.firstPoint s
  /\ State.secondPoint (fst (handle s e)) = State.secondPoint s
  /\ State.alignment (fst (handle s e)) = State.alignment s.
Proof.
  destruct e as [| | info | info | a]; cbn [isMove]; try contradiction.
  intros _. cbn [handle]. unfold handleMouseMove.
  destruct (coordinate info); cbn; auto.
Qed.

Lemma moves_keep (moves : list Event) :
  forall s, Forall isMove moves ->
    State.mode (fst (run s moves)) = State.mode s
    /\ State.firstPoint (fst (run s moves)) = State.firstPoint s
    /\ State.secondPoint (fst (run s moves)) = State.secondPoint s
    /\ State.alignment (fst (run s moves)) = State.alignment s.
Proof.
  induction moves as [| e rest IH]; intros s H; [cbn; auto |].
  inversion H as [| ? ? He Hrest]; subst.
  rewrite run_cons.
  destruct (IH (fst (handle s e)) Hrest) as [A [B [C D]]].
  destruct (move_keeps s e He) as [A' [B' [C' D']]].
  rewrite A, B, C, D. auto.
Qed.


End HookMore.





(** With a render between any two events: after startEditing, three
    clicks with coordinates, with arbitrary moves before each, bring the
    hook from any state through SECOND_POINT and WIDTH_SELECTION, holding
    the clicked points, back to INACTIVE with everything cleared. *)
Lemma run_three_clicks :
  forall (s : UseOrbitAreaEditor.State.t)
         (moves1 moves2 moves3 : list UseOrbitAreaEditor.Event)
         (c1 c2 c3 : list Qc),
    Forall isMove moves1 -> Forall isMove moves2 -> Forall isMove moves3 ->
    let click c := UseOrbitAreaEditor.HandleMapClick (mkInfo (Some c)) in
    let one := UseOrbitAreaEditor.StartEditing :: moves1 ++ [click c1] in
    let two := one ++ moves2 ++ [click c2] in
    let three := two ++ moves3 ++ [click c3] in
    let s1 := fst (UseOrbitAreaEditor.run s one) in
    let s2 := fst (UseOrbitAreaEditor.run s two) in
    let s3 := fst (UseOrbitAreaEditor.run s three) in
    (UseOrbitAreaEditor.State.mode s1 = SECOND_POINT
     /\ UseOrbitAreaEditor.State.firstPoint s1 = Some (pointOf c1))
    /\ (UseOrbitAreaEditor.State.mode s2 = WIDTH_SELECTION
        /\ UseOrbitAreaEditor.State.firstPoint s2 = Some (pointOf c1)
        /\ UseOrbitAreaEditor.State.secondPoint s2 = Some (pointOf c2))
    /\ s3 = UseOrbitAreaEditor.State.mk INACTIVE None None None None CENTRE.
Proof.
  intros s moves1 moves2 moves3 c1 c2 c3 M1 M2 M3 click one two three
         s1 s2 s3.
  assert (Click : forall t c,
            fst (UseOrbitAreaEditor.run t [click c])
            = fst (UseOrbitAreaEditor.handleMapClick t (mkInfo (Some c)))).
  { intros t c. cbn [UseOrbitAreaEditor.run UseOrbitAreaEditor.handle click].
    destruct (UseOrbitAreaEditor.handleMapClick t (mkInfo (Some c))).
    reflexivity. }
  (* after the first click *)
  pose (t0 := UseOrbitAreaEditor.State.mk FIRST_POINT None None None None CENTRE).
  destruct (moves_keep moves1 t0 M1) as [A1 [B1 [C1 D1]]].
  assert (E1 : s1 = fst (UseOrbitAreaEditor.handleMapClick
                           (fst (UseOrbitAreaEditor.run t0 moves1))
                           (mkInfo (Some c1)))).
  { unfold s1, one. rewrite run_cons.
    change (fst (UseOrbitAreaEditor.handle s UseOrbitAreaEditor.StartEditing))
      with t0.
    rewrite run_app. apply Click. }
  assert (S1 : UseOrbitAreaEditor.State.mode s1 = SECOND_POINT
               /\ UseOrbitAreaEditor.State.firstPoint s1 = Some (pointOf c1)
               /\ UseOrbitAreaEditor.State.secondPoint s1 = None
               /\ UseOrbitAreaEditor.State.alignment s1 = CENTRE).
  { rewrite E1. unfold UseOrbitAreaEditor.handleMapClick.
    cbn [coordinate]. rewrite A1.
    change (UseOrbitAreaEditor.State.mode t0) with FIRST_POINT.
    cbn [fst UseOrbitAreaEditor.State.mode UseOrbitAreaEditor.State.firstPoint
         UseOrbitAreaEditor.State.secondPoint
         UseOrbitAreaEditor.State.alignment].
    rewrite C1, D1. repeat split. }
  destruct S1 as [S1m [S1f [S1s S1a]]].
  (* after the second click *)
  destruct (moves_keep moves2 s1 M2) as [A2 [B2 [C2 D2]]].
  assert (E2 : s2 = fst (UseOrbitAreaEditor.handleMapClick
                           (fst (UseOrbitAreaEditor.run s1 moves2))
                           (mkInfo (Some c2)))).
  { unfold s2, two. rewrite run_app. fold s1. rewrite run_app. apply Click. }
  assert (S2 : UseOrbitAreaEditor.State.mode s2 = WIDTH_SELECTION
               /\ UseOrbitAreaEditor.State.firstPoint s2 = Some (pointOf c1)
               /\ UseOrbitAreaEditor.State.secondPoint s2 = Some (pointOf c2)
               /\ UseOrbitAreaEditor.State.alignment s2 = CENTRE).
  { rewrite E2. unfold UseOrbitAreaEditor.handleMapClick.
    cbn [coordinate]. rewrite A2, S1m.
    cbn [fst UseOrbitAreaEditor.State.mode UseOrbitAreaEditor.State.firstPoint
         UseOrbitAreaEditor.State.secondPoint
         UseOrbitAreaEditor.State.alignment].
    rewrite B2, D2, S1f, S1a. repeat split. }
  destruct S2 as [S2m [S2f [S2s S2a]]].
  (* after the third click *)
  destruct (moves_keep moves3 s2 M3) as [A3 [B3 [C3 D3]]].
  assert (E3 : s3 = fst (UseOrbitAreaEditor.handleMapClick
                           (fst (UseOrbitAreaEditor.run s2 moves3))
                           (mkInfo (Some c3)))).
  { unfold s3, three. rewrite run_app. fold s2. rewrite run_app. apply Click. }
  split; [auto | split; [auto |]].
  rewrite E3. unfold UseOrbitAreaEditor.handleMapClick. cbn [coordinate].
  rewrite A3, S2m, B3, C3, D3, S2f, S2s, S2a. reflexivity.
Qed.

(** A render after every event makes the runtime follow [run]. *)
Lemma renderedAfterEach_run (events : list UseOrbitAreaEditor.Event) :
  forall s : UseOrbitAreaEditor.State.t,
    HookRuntime.steps (HookRuntime.settled s)
      (HookRuntime.renderedAfterEach events)
    = HookRuntime.settled (fst (UseOrbitAreaEditor.run s events)).
Proof.
  induction events as [| e rest IH]; intros s; [reflexivity |].
  rewrite run_cons, <- IH.
  unfold HookRuntime.steps, HookRuntime.renderedAfterEach.
  cbn [flat_map app fold_left]. f_equal.
  unfold HookRuntime.settled, HookRuntime.step.
  cbn [HookRuntime.rendered HookRuntime.latest].
  destruct e as [| | info | info | a];
    cbn [HookRuntime.update UseOrbitAreaEditor.handle].
  - reflexivity.
  - reflexivity.
  - unfold UseOrbitAreaEditor.handleMapClick, clickApplies.
    destruct (coordinate info) as [c |]; [| reflexivity].
    destruct (UseOrbitAreaEditor.State.mode s); try reflexivity.
    destruct (UseOrbitAreaEditor.State.firstPoint s); [| reflexivity].
    destruct (UseOrbitAreaEditor.State.secondPoint s); reflexivity.
  - unfold UseOrbitAreaEditor.handleMouseMove.
    destruct (coordinate info) as [c |]; reflexivity.
  - reflexivity.
Qed.

(** X14.  The three-click workflow needs a render after every event.  When
    the component renders after each event, startEditing and three clicks
    with coordinates, with arbitrary moves before each, bring the hook
    from any state through WIDTH_SELECTION, holding the clicked points,
    back to INACTIVE with everything cleared.  But a mouse move handled
    before the render that follows a click is handled by the closure of
    the render before the click: the state it sets replaces the one the
    click has set, and the click is lost. *)
Theorem X14_three_clicks_need_a_render_after_each_event :
  forall (s t : UseOrbitAreaEditor.State.t)
         (moves1 moves2 moves3 : list UseOrbitAreaEditor.Event)
         (c1 c2 c3 c c' : list Qc),
    Forall isMove moves1 -> Forall isMove moves2 -> Forall isMove moves3 ->
    let click c := UseOrbitAreaEditor.HandleMapClick (mkInfo (Some c)) in
    let move c := UseOrbitAreaEditor.HandleMouseMove (mkInfo (Some c)) in
    let one := UseOrbitAreaEditor.StartEditing :: moves1 ++ [click c1] in
    let two := one ++ moves2 ++ [click c2] in
    let three := two ++ moves3 ++ [click c3] in
    let rt2 :=
      HookRuntime.steps (HookRuntime.settled s)
        (HookRuntime.renderedAfterEach two) in
    let stale :=
      HookRuntime.steps (HookRuntime.settled t)
        [ HookRuntime.Invoke (click c); HookRuntime.Invoke (move c');
          HookRuntime.Render ] in
    (HookRuntime.rendered rt2 = HookRuntime.latest rt2
     /\ UseOrbitAreaEditor.State.mode (HookRuntime.latest rt2)
        = WIDTH_SELECTION
     /\ UseOrbitAreaEditor.State.firstPoint (HookRuntime.latest rt2)
        = Some (pointOf c1)
     /\ UseOrbitAreaEditor.State.secondPoint (HookRuntime.latest rt2)
        = Some (pointOf c2))
    /\ HookRuntime.steps (HookRuntime.settled s)
         (HookRuntime.renderedAfterEach three)
       = HookRuntime.settled
           (UseOrbitAreaEditor.State.mk INACTIVE None None None None CENTRE)
    /\ stale
       = HookRuntime.settled
           (fst (UseOrbitAreaEditor.handleMouseMove t (mkInfo (Some c'))))
    /\ UseOrbitAreaEditor.State.mode (HookRuntime.latest stale)
       = UseOrbitAreaEditor.State.mode t
    /\ UseOrbitAreaEditor.State.firstPoint (HookRuntime.latest stale)
       = UseOrbitAreaEditor.State.firstPoint t
    /\ UseOrbitAreaEditor.State.secondPoint (HookRuntime.latest stale)
       = UseOrbitAreaEditor.State.secondPoint t.
Proof.
  intros s t moves1 moves2 moves3 c1 c2 c3 c c' M1 M2 M3
         click move one two three rt2 stale.
  destruct (run_three_clicks s moves1 moves2 moves3 c1 c2 c3 M1 M2 M3)
    as [_ [[R2m [R2f R2s]] R3]].
  assert (St : stale
               = HookRuntime.settled
                   (fst (UseOrbitAreaEditor.handleMouseMove t
                           (mkInfo (Some c'))))).
  { unfold stale, HookRuntime.steps, HookRuntime.settled.
    cbn [fold_left HookRuntime.step HookRuntime.rendered HookRuntime.latest
         HookRuntime.update click move coordinate].
    destruct (clickApplies t); reflexivity. }
  split; [| split; [| split; [exact St |]]].
  - unfold rt2. rewrite renderedAfterEach_run.
    cbn [HookRuntime.settled HookRuntime.rendered HookRuntime.latest].
    split; [reflexivity | split; [exact R2m | split; [exact R2f | exact R2s]]].
  - rewrite renderedAfterEach_run. f_equal. exact R3.
  - rewrite St. cbn [HookRuntime.settled HookRuntime.latest].
    unfold UseOrbitAreaEditor.handleMouseMove. cbn [coordinate fst].
    repeat split.
Qed.

Lemma X14_witness :
  Forall isMove [UseOrbitAreaEditor.HandleMouseMove pickNothing]
  /\ Forall isMove
       [UseOrbitAreaEditor.HandleMouseMove (pickAt (GridGeolib.pt 1 1))]
  /\ Forall isMove []
  /\ HookRuntime.steps (HookRuntime.settled hookWidthSelection)
       (HookRuntime.renderedAfterEach
          (((UseOrbitAreaEditor.StartEditing
             :: [UseOrbitAreaEditor.HandleMouseMove pickNothing]
                ++ [UseOrbitAreaEditor.HandleMapClick
                      (mkInfo (Some [num 7]))])
            ++ [UseOrbitAreaEditor.HandleMouseMove
                  (pickAt (GridGeolib.pt 1 1))]
               ++ [UseOrbitAreaEditor.HandleMapClick (mkInfo (Some []))])
           ++ [] ++ [UseOrbitAreaEditor.HandleMapClick
                       (mkInfo (Some [num 1; num 2; num 3]))]))
     = HookRuntime.settled
         (UseOrbitAreaEditor.State.mk INACTIVE None None None None CENTRE)
  /\ UseOrbitAreaEditor.State.mode
       (HookRuntime.latest
          (HookRuntime.steps (HookRuntime.settled hookWidthSelection)
             [ HookRuntime.Invoke
                 (UseOrbitAreaEditor.HandleMapClick (mkInfo (Some [num 5])));
               HookRuntime.Invoke
                 (UseOrbitAreaEditor.HandleMouseMove (mkInfo (Some [num 6])));
               HookRuntime.Render ]))
     = WIDTH_SELECTION.
Proof.
  assert (M1 : Forall isMove [UseOrbitAreaEditor.HandleMouseMove pickNothing])
    by (repeat constructor).
  assert (M2 : Forall isMove
                 [UseOrbitAreaEditor.HandleMouseMove
                    (pickAt (GridGeolib.pt 1 1))])
    by (repeat constructor).
  assert (M3 : Forall isMove []) by constructor.
  split; [exact M1 | split; [exact M2 | split; [exact M3 |]]].
  pose proof (X14_three_clicks_need_a_render_after_each_event
                hookWidthSelection hookWidthSelection
                _ _ _ [num 7] [] [num 1; num 2; num 3] [num 5] [num 6]
                M1 M2 M3) as H.
  cbv zeta in H.
  destruct H as [_ [H3 [_ [Hm _]]]].
  split; [exact H3 | exact Hm].
Defined.

(* ================================================================= *)
(** ** The editor layer, continued *)

Section EditorMore.
Context {G : Geolib}.

Lemma or_zero_nullish (v : option Qc) : or_zero v = nullish_zero v.
Proof. destruct v as [x |]; [apply or_zero_some | reflexivity]. Qed.

End EditorMore.

(** X15.  On an event that carries a coordinate, the layer and the hook
    agree on the next editor state: the state the layer's [onClick] asks
    for through [onStateChange] is the state the hook's [handleMapClick]
    sets, where the hook changes the state at all (and the layer asks for
    nothing where it does not); likewise [onHover] and
    [handleMouseMove]. *)
Theorem X15_layer_and_hook_agree_on_the_next_state :
  forall (G : Geolib) (s : UseOrbitAreaEditor.State.t) (c : list Qc)
         (a : OrbitAreaAlignmentEnum) (complete : bool),
    let info := mkInfo (Some c) in
    let this :=
      OrbitAreaEditor.mkLayer
        (OrbitAreaEditor.mkProps
           (UseOrbitAreaEditor.toEditorState s) true complete) a in
    stateChanges (OrbitAreaEditor.calls (OrbitAreaEditor.onClick this info))
    = (if clickApplies s
       then [UseOrbitAreaEditor.toEditorState
               (fst (UseOrbitAreaEditor.handleMapClick s info))]
       else [])
    /\ (clickApplies s = true
        \/ fst (UseOrbitAreaEditor.handleMapClick s info) = s)
    /\ stateChanges (OrbitAreaEditor.calls (OrbitAreaEditor.onHover this info))
       = [UseOrbitAreaEditor.toEditorState
            (fst (UseOrbitAreaEditor.handleMouseMove s info))].
Proof.
  intros G s c a complete info this.
  unfold OrbitAreaEditor.onClick, OrbitAreaEditor.onHover,
    UseOrbitAreaEditor.handleMapClick, UseOrbitAreaEditor.handleMouseMove,
    clickApplies.
  cbn [this info coordinate OrbitAreaEditor.props OrbitAreaEditor.editorState
       OrbitAreaEditor.onStateChange OrbitAreaEditor.onOrbitAreaComplete
       negb UseOrbitAreaEditor.toEditorState
       EditorState.mode EditorState.firstPoint EditorState.secondPoint
       EditorState.width EditorState.mousePosition EditorState.alignment].
  rewrite !or_zero_nullish.
  destruct s as [m fp sp w mp al].
  cbn [UseOrbitAreaEditor.State.mode UseOrbitAreaEditor.State.firstPoint
       UseOrbitAreaEditor.State.secondPoint UseOrbitAreaEditor.State.width
       UseOrbitAreaEditor.State.mousePosition
       UseOrbitAreaEditor.State.alignment].
  destruct m; [| | | destruct fp as [f |]; [destruct sp as [s2 |] |]];
    try destruct complete;
    (split; [reflexivity | split; [auto | reflexivity]]).
Qed.

(** X16.  [updateState] is idempotent and never touches the props, so
    applying the same props twice gives the layer that applying them once
    gives. *)
Theorem X16_updateState_is_idempotent :
  forall (G : Geolib) (this : OrbitAreaEditor.Layer) (p : OrbitAreaEditor.Props),
    OrbitAreaEditor.updateState (OrbitAreaEditor.updateState this)
    = OrbitAreaEditor.updateState this
    /\ OrbitAreaEditor.props (OrbitAreaEditor.updateState this)
       = OrbitAreaEditor.props this
    /\ OrbitAreaEditor.setProps (OrbitAreaEditor.setProps this p) p
       = OrbitAreaEditor.setProps this p.
Proof.
  intros G this p.
  assert (I : forall l : OrbitAreaEditor.Layer,
            OrbitAreaEditor.updateState (OrbitAreaEditor.updateState l)
            = OrbitAreaEditor.updateState l
            /\ OrbitAreaEditor.props (OrbitAreaEditor.updateState l)
               = OrbitAreaEditor.props l).
  { intros [[es cb1 cb2] al]. destruct es as [m fp sp w mp ea].
    unfold OrbitAreaEditor.updateState.
    cbn [OrbitAreaEditor.props OrbitAreaEditor.editorState
         OrbitAreaEditor._currentAlignment
         EditorState.mode EditorState.firstPoint EditorState.secondPoint
         EditorState.mousePosition EditorState.alignment].
    destruct ea as [e |], m, fp as [f |], sp as [s |], mp as [mpos |];
      split; reflexivity. }
  split; [apply I | split; [apply I |]].
  unfold OrbitAreaEditor.setProps.
  destruct (I (OrbitAreaEditor.mkLayer p (OrbitAreaEditor._currentAlignment this)))
    as [I1 I2].
  cbn [OrbitAreaEditor.props] in I2.
  set (u := OrbitAreaEditor.updateState
              (OrbitAreaEditor.mkLayer p (OrbitAreaEditor._currentAlignment this)))
    in *.
  destruct u as [pu au]. cbn [OrbitAreaEditor.props OrbitAreaEditor._currentAlignment] in *.
  subst pu. exact I1.
Qed.

(** X17.  What is previewed is what is delivered: in WIDTH_SELECTION with
    both points placed and the mouse at [mp], once [updateState] has run,
    a click at [mp] delivers exactly one OrbitArea, and the polygon the
    display layer generates for that area is the polygon the editor was
    previewing. *)
Theorem X17_preview_is_the_polygon_of_the_delivered_area :
  forall (G : Geolib) (this : OrbitAreaEditor.Layer) (fp sp mp : Point),
    let es := OrbitAreaEditor.editorState (OrbitAreaEditor.props this) in
    EditorState.mode es = WIDTH_SELECTION ->
    EditorState.firstPoint es = Some fp ->
    EditorState.secondPoint es = Some sp ->
    EditorState.mousePosition es = Some mp ->
    OrbitAreaEditor.onStateChange (OrbitAreaEditor.props this) = true ->
    OrbitAreaEditor.onOrbitAreaComplete (OrbitAreaEditor.props this) = true ->
    let shown := OrbitAreaEditor.updateState this in
    exists area,
      completions
        (OrbitAreaEditor.calls (OrbitAreaEditor.onClick shown (pickAt mp)))
      = [area]
      /\ OrbitArea.alignment area
         = determineAlignmentFromMousePosition fp sp mp
      /\ option_map (fun preview => [preview])
           (OrbitAreaEditor.previewPolygon shown)
         = Some (map OrbitAreaLayer.polygon (OrbitAreaLayer.polygons [area])).
Proof.
  intros G this fp sp mp es Hm Hf Hs Hmp Hcb Hdone shown.
  assert (Hshown : shown
                   = OrbitAreaEditor.mkLayer (OrbitAreaEditor.props this)
                       (determineAlignmentFromMousePosition fp sp mp)).
  { unfold shown, OrbitAreaEditor.updateState. fold es.
    destruct (EditorState.alignment es);
      cbn [OrbitAreaEditor.props]; fold es; rewrite Hm, Hf, Hs, Hmp;
      reflexivity. }
  rewrite Hshown.
  exists (OrbitArea.mk fp sp (num 2 * calculateDistance sp mp)
            (determineAlignmentFromMousePosition fp sp mp)).
  split; [| split].
  - rewrite (onClick_width_selection _ fp sp mp); try assumption.
    cbn [OrbitAreaEditor.calls OrbitAreaEditor.props
         OrbitAreaEditor._currentAlignment].
    rewrite Hdone. reflexivity.
  - reflexivity.
  - unfold OrbitAreaEditor.previewPolygon.
    cbn [OrbitAreaEditor.props OrbitAreaEditor._currentAlignment].
    fold es. rewrite Hm, Hf, Hs, Hmp.
    cbn [option_map OrbitAreaLayer.polygons map OrbitAreaLayer.polygon
         OrbitArea.first_point OrbitArea.second_point OrbitArea.width
         OrbitArea.alignment].
    rewrite (Qcmult_comm (calculateDistance sp mp)). reflexivity.
Qed.

Lemma X17_witness :
  let this :=
    OrbitAreaEditor.create
      (OrbitAreaEditor.mkProps
         (EditorState.mk WIDTH_SELECTION
            (Some (GridGeolib.pt 0 0)) (Some (GridGeolib.pt 1 0)) None
            (Some (GridGeolib.pt 1 (-3))) (Some CENTRE))
         true true) in
  let es := OrbitAreaEditor.editorState (OrbitAreaEditor.props this) in
  EditorState.mode es = WIDTH_SELECTION
  /\ EditorState.firstPoint es = Some (GridGeolib.pt 0 0)
  /\ EditorState.secondPoint es = Some (GridGeolib.pt 1 0)
  /\ EditorState.mousePosition es = Some (GridGeolib.pt 1 (-3))
  /\ OrbitAreaEditor.onStateChange (OrbitAreaEditor.props this) = true
  /\ OrbitAreaEditor.onOrbitAreaComplete (OrbitAreaEditor.props this) = true
  /\ exists area,
       completions
         (OrbitAreaEditor.calls
            (OrbitAreaEditor.onClick (G := GridGeolib.geolib)
               (OrbitAreaEditor.updateState (G := GridGeolib.geolib) this)
               (pickAt (GridGeolib.pt 1 (-3)))))
       = [area]
       /\ OrbitArea.alignment area
          = determineAlignmentFromMousePosition (G := GridGeolib.geolib)
              (GridGeolib.pt 0 0) (GridGeolib.pt 1 0) (GridGeolib.pt 1 (-3))
       /\ option_map (fun preview => [preview])
            (OrbitAreaEditor.previewPolygon (G := GridGeolib.geolib)
               (OrbitAreaEditor.updateState (G := GridGeolib.geolib) this))
          = Some (map OrbitAreaLayer.polygon
                    (OrbitAreaLayer.polygons (G := GridGeolib.geolib) [area])).
Proof.
  intros this es.
  split; [reflexivity | split; [reflexivity | split; [reflexivity |
    split; [reflexivity | split; [reflexivity | split; [reflexivity |]]]]]].
  exact (X17_preview_is_the_polygon_of_the_delivered_area GridGeolib.geolib
           this (GridGeolib.pt 0 0) (GridGeolib.pt 1 0) (GridGeolib.pt 1 (-3))
           eq_refl eq_refl eq_refl eq_refl eq_refl eq_refl).
Defined.

(** X18.  The display layer draws, for every OrbitArea of its data and in
    the same order, one closed ring of 43 points, and two markers, the
    first and the second point of the area. *)
Theorem X18_display_layer_data :
  forall (G : Geolib) (data : list OrbitArea.t),
    map OrbitAreaLayer.originalData (OrbitAreaLayer.polygons data) = data
    /\ Forall (fun d =>
                 List.length (OrbitAreaLayer.getPolygon d) = 43%nat
                 /\ exists p middle,
                      OrbitAreaLayer.polygon d = p :: middle ++ [p])
         (OrbitAreaLayer.polygons data)
    /\ List.length (OrbitAreaLayer.markers data) = (2 * List.length data)%nat
    /\ map OrbitAreaLayer.position (OrbitAreaLayer.markers data)
       = flat_map
           (fun area =>
              [ (longitude (OrbitArea.first_point area),
                 latitude (OrbitArea.first_point area));
                (longitude (OrbitArea.second_point area),
                 latitude (OrbitArea.second_point area)) ])
           data.
Proof.
  intros G data. split; [| split; [| split]].
  - unfold OrbitAreaLayer.polygons. rewrite map_map.
    cbn [OrbitAreaLayer.originalData]. apply map_id.
  - apply Forall_forall. intros d Hd.
    unfold OrbitAreaLayer.polygons in Hd. apply in_map_iff in Hd.
    destruct Hd as [a [<- _]].
    unfold OrbitAreaLayer.getPolygon. cbn [OrbitAreaLayer.polygon].
    rewrite length_map, generateOrbitAreaPolygon_shape.
    split.
    + rewrite !length_app, !capPoints_length. reflexivity.
    + unfold capPoints at 1. rewrite <- cons_seq. cbn [map app].
      rewrite app_assoc. eexists. eexists. reflexivity.
  - unfold OrbitAreaLayer.markers.
    induction data as [| a rest IH]; [reflexivity |].
    cbn [flat_map app List.length]. rewrite IH. lia.
  - unfold OrbitAreaLayer.markers.
    induction data as [| a rest IH]; [reflexivity |].
    cbn [flat_map app map OrbitAreaLayer.position]. rewrite IH. reflexivity.
Qed.

(* ================================================================= *)
(** ** The alignment debug layer *)

Section DebugLayerFacts.
Context {G : Geolib}.

Import AlignmentDebug.

Lemma of_nat_0 : of_nat 0 = 0.
Proof. reflexivity. Qed.

Lemma of_nat_S (i : nat) : of_nat (S i) = of_nat i + 1.
Proof.
  apply Qc_is_canon. unfold of_nat.
  rewrite this_plus, !this_num, Nat2Z.inj_succ.
  unfold Z.succ. rewrite inject_Z_plus. reflexivity.
Qed.

Lemma of_nat_nonneg (i : nat) : 0 <= of_nat i.
Proof.
  unfold Qcle, of_nat. rewrite this_num.
  change (this 0) with (inject_Z 0). rewrite <- Zle_Qle. lia.
Qed.

Lemma this_2 : this (num 2) = (2 # 1)%Q.
Proof. reflexivity. Qed.

(** Once the angle is within [j] steps of passing the end angle, any fuel
    above [j] gives the same vertices. *)
Lemma arcLoop_fuel (j : nat) :
  forall (fuel k : nat) (cp : Point) (mb r angle e : Qc) (pts : list Point),
    e < angle + num 2 * of_nat j ->
    (j < fuel)%nat ->
    arcLoop (fuel + k) cp mb r angle e pts = arcLoop fuel cp mb r angle e pts.
Proof.
  induction j as [| j IH]; intros fuel k cp mb r angle e pts Hj Hf.
  - destruct fuel as [| fuel]; [lia |]. cbn [Nat.add arcLoop].
    replace (angle + num 2 * of_nat 0) with angle in Hj
      by (rewrite of_nat_0; ring).
    replace (angle <=? e) with false; [reflexivity |].
    symmetry. apply leb_gt. exact Hj.
  - destruct fuel as [| fuel]; [lia |]. cbn [Nat.add arcLoop].
    destruct (angle <=? e); [| reflexivity].
    apply IH; [| lia].
    replace (angle + num 2 + num 2 * of_nat j)
      with (angle + num 2 * of_nat (S j)) by (rewrite of_nat_S; ring).
    exact Hj.
Qed.

Lemma arcFuel_enough (s e : Qc) :
  exists j : nat,
    e < s + num 2 * of_nat j /\ (j < arcFuel s e)%nat.
Proof.
  unfold arcFuel. destruct (s <=? e) eqn:C.
  - apply leb_le in C.
    set (x := (e - s) / num 2).
    assert (Ex : (this x == (this e - this s) * (1 # 2))%Q).
    { unfold x. rewrite this_div, this_minus, this_2. reflexivity. }
    assert (X0 : 0 <= x).
    { unfold Qcle in *. rewrite Ex. change (this 0) with 0%Q. lra. }
    destruct (trunc_nonneg x X0) as [T0 T1].
    assert (Tn : (0 <= trunc x)%Z).
    { rewrite (trunc_floor x X0). change 0%Z with (Qfloor 0).
      apply Qfloor_resp_le. exact X0. }
    exists (S (Z.to_nat (trunc x))). split; [| lia].
    unfold Qclt. rewrite this_plus, this_mult, this_2, of_nat_S, this_plus.
    unfold of_nat. rewrite this_num, Z2Nat.id by exact Tn.
    change (this 1) with 1%Q. rewrite Ex in T1. lra.
  - apply leb_gt in C. exists 0%nat. split; [| lia].
    replace (s + num 2 * of_nat 0) with s by (rewrite of_nat_0; ring).
    exact C.
Qed.

(** A span of [n] whole steps yields the [n + 1] vertices at
    [angle + 2 i]. *)
Lemma arcLoop_exact (n : nat) :
  forall (fuel : nat) (cp : Point) (mb r angle e : Qc) (pts : list Point),
    e = angle + num 2 * of_nat n ->
    (n < fuel)%nat ->
    arcLoop fuel cp mb r angle e pts
    = pts ++ map (fun i =>
                    calculateDestinationPoint cp
                      (normalizeAngle (mb + (angle + num 2 * of_nat i))) r)
               (seq 0 (S n)).
Proof.
  induction n as [| n IH]; intros fuel cp mb r angle e pts He Hf.
  - destruct fuel as [| fuel]; [lia |]. cbn [arcLoop seq map].
    replace (angle + num 2 * of_nat 0) with angle in *
      by (rewrite of_nat_0; ring).
    subst e.
    replace (angle <=? angle) with true
      by (symmetry; apply leb_le; apply Qcle_refl).
    destruct fuel as [| fuel]; cbn [arcLoop]; [reflexivity |].
    replace (angle + num 2 <=? angle) with false; [reflexivity |].
    symmetry. apply leb_gt. unfold Qclt. rewrite this_plus, this_2. lra.
  - destruct fuel as [| fuel]; [lia |]. cbn [arcLoop].
    replace (angle <=? e) with true.
    2:{ symmetry. apply leb_le. subst e. pose proof (of_nat_nonneg (S n)) as P.
        unfold Qcle in *. rewrite this_plus, this_mult, this_2.
        change (this 0) with 0%Q in P. lra. }
    rewrite (IH fuel cp mb r (angle + num 2) e); [| | lia].
    + rewrite <- app_assoc. f_equal.
      rewrite <- (cons_seq (S n) 0). cbn [map app].
      f_equal.
      * do 3 f_equal. rewrite of_nat_0. ring.
      * rewrite <- seq_shift, map_map. apply map_ext. intros i.
        do 3 f_equal. rewrite of_nat_S. ring.
    + subst e. rewrite of_nat_S. ring.
Qed.

End DebugLayerFacts.

(** X19.  [generateQuadrantDividers] returns one dotted line per divider
    angle, in order: 21 dots on the bearing [mainBearing + angle]
    (normalised), dot [i] at distance [(i * radius) / 20] from the center
    and so the first at distance 0.  The divider angles are exactly the
    lower bounds, and exactly the upper bounds, of the quadrants the
    classifier uses. *)
Theorem X19_dividers_run_along_the_quadrant_bounds :
  forall (G : Geolib) (center : Qc * Qc) (mainBearing radius : Qc),
    let centerPoint := {| longitude := fst center; latitude := snd center |} in
    let dot (angle distance : Qc) :=
      Some (calculateDestinationPoint centerPoint
              (normalizeAngle (mainBearing + angle)) distance) in
    Forall2
      (fun angle divider =>
         List.length divider = 21%nat
         /\ nth_error divider 0 = dot angle 0
         /\ forall i, (i <= 20)%nat ->
              nth_error divider i
              = dot angle ((of_nat i * radius) / of_nat AlignmentDebug.numDots))
      AlignmentDebug.dividerAngles
      (AlignmentDebug.generateQuadrantDividers center mainBearing radius)
    /\ (forall a, In a AlignmentDebug.dividerAngles <->
          exists q, In q ALIGNMENT_QUADRANTS /\ AlignmentQuadrant.minAngle q = a)
    /\ (forall a, In a AlignmentDebug.dividerAngles <->
          exists q, In q ALIGNMENT_QUADRANTS /\ AlignmentQuadrant.maxAngle q = a).
Proof.
  intros G center mb radius centerPoint dot.
  split; [| split].
  - unfold AlignmentDebug.generateQuadrantDividers.
    fold centerPoint.
    assert (D : forall angle,
              for_upto AlignmentDebug.numDots
                (fun i divider =>
                   divider
                   ++ [calculateDestinationPoint centerPoint
                         (normalizeAngle (mb + angle))
                         ((of_nat i * radius) / of_nat AlignmentDebug.numDots)])
                []
              = map (fun i =>
                       calculateDestinationPoint centerPoint
                         (normalizeAngle (mb + angle))
                         ((of_nat i * radius) / of_nat AlignmentDebug.numDots))
                    (seq 0 21)).
    { intros angle. unfold for_upto.
      rewrite (fold_left_push
                 (fun i => calculateDestinationPoint centerPoint
                             (normalizeAngle (mb + angle))
                             ((of_nat i * radius)
                              / of_nat AlignmentDebug.numDots))).
      reflexivity. }
    assert (N : forall angle i, (i <= 20)%nat ->
              nth_error
                (map (fun i =>
                        calculateDestinationPoint centerPoint
                          (normalizeAngle (mb + angle))
                          ((of_nat i * radius) / of_nat AlignmentDebug.numDots))
                     (seq 0 21)) i
              = dot angle ((of_nat i * radius) / of_nat AlignmentDebug.numDots)).
    { intros angle i Hi. rewrite nth_error_map, nth_error_seq.
      replace (i <? 21)%nat with true by (symmetry; apply Nat.ltb_lt; lia).
      reflexivity. }
    assert (Z0 : (of_nat 0 * radius) / of_nat AlignmentDebug.numDots = 0).
    { rewrite of_nat_0. unfold Qcdiv. ring. }
    unfold AlignmentDebug.dividerAngles. cbn [map].
    repeat (constructor;
            [ rewrite D; split; [rewrite length_map, length_seq; reflexivity |
                split; [rewrite (N _ 0%nat) by lia; rewrite Z0; reflexivity |
                        intros i Hi; apply N; exact Hi]] | ]).
    constructor.
  - intros a. unfold AlignmentDebug.dividerAngles. cbn [In ALIGNMENT_QUADRANTS].
    split.
    + intros [<- | [<- | [<- | [<- | []]]]].
      * exists (AlignmentQuadrant.mk "RIGHT" (num 45) (num 135) RIGHT). auto.
      * exists (AlignmentQuadrant.mk "CENTER_BACKWARD" (num 135) (num 225) CENTRE).
        auto.
      * exists (AlignmentQuadrant.mk "LEFT" (num 225) (num 315) LEFT). auto 6.
      * exists (AlignmentQuadrant.mk "CENTER_FORWARD" (num 315) (num 45) CENTRE).
        auto.
    + intros [q [[<- | [<- | [<- | [<- | []]]]] <-]];
        cbn [AlignmentQuadrant.minAngle]; auto 6.
  - intros a. unfold AlignmentDebug.dividerAngles. cbn [In ALIGNMENT_QUADRANTS].
    split.
    + intros [<- | [<- | [<- | [<- | []]]]].
      * exists (AlignmentQuadrant.mk "CENTER_FORWARD" (num 315) (num 45) CENTRE).
        auto.
      * exists (AlignmentQuadrant.mk "RIGHT" (num 45) (num 135) RIGHT). auto.
      * exists (AlignmentQuadrant.mk "CENTER_BACKWARD" (num 135) (num 225) CENTRE).
        auto.
      * exists (AlignmentQuadrant.mk "LEFT" (num 225) (num 315) LEFT). auto 6.
    + intros [q [[<- | [<- | [<- | [<- | []]]]] <-]];
        cbn [AlignmentQuadrant.maxAngle]; auto 6.
Qed.

(** X20.  For each quadrant of the classifier's table,
    [generateQuadrantVertices] returns the center, the 46 arc vertices at
    the relative angles [minAngle + 2 i] ([i = 0 .. 45], the last one at
    the wraparound-adjusted end angle), for the wrapping quadrant
    CENTER_FORWARD one more vertex at its end angle 45, and the center
    again: 48 vertices, 49 for CENTER_FORWARD.  The arc loop stops because
    the angle passes the end angle: a larger bound on the number of turns
    gives the same vertices. *)
Theorem X20_quadrant_fans_of_the_table :
  forall (G : Geolib) (center : Qc * Qc) (mainBearing : Qc)
         (quadrant : AlignmentQuadrant.t) (radius : Qc) (k : nat),
    In quadrant ALIGNMENT_QUADRANTS ->
    let lo := AlignmentQuadrant.minAngle quadrant in
    let hi := AlignmentQuadrant.maxAngle quadrant in
    let centerPoint := {| longitude := fst center; latitude := snd center |} in
    let vertex (x : Qc) :=
      calculateDestinationPoint centerPoint
        (normalizeAngle (mainBearing + x)) radius in
    let arc := map (fun i => vertex (lo + num 2 * of_nat i)) (seq 0 46) in
    let fan :=
      AlignmentDebug.generateQuadrantVertices center mainBearing quadrant
        radius in
    fan = [centerPoint] ++ arc
          ++ (if lo >? hi then [vertex hi] else []) ++ [centerPoint]
    /\ adjustedEnd lo hi = lo + num 90
    /\ List.length fan = (if lo >? hi then 49 else 48)%nat
    /\ AlignmentDebug.arcLoop
         (AlignmentDebug.arcFuel lo (adjustedEnd lo hi) + k)
         centerPoint mainBearing radius lo (adjustedEnd lo hi) [centerPoint]
       = AlignmentDebug.arcLoop
           (AlignmentDebug.arcFuel lo (adjustedEnd lo hi))
           centerPoint mainBearing radius lo (adjustedEnd lo hi) [centerPoint].
Proof.
  intros G center mb q radius k Hq lo hi centerPoint vertex arc fan.
  assert (Hspan : adjustedEnd lo hi = lo + num 2 * of_nat 45).
  { unfold lo, hi. cbn [In ALIGNMENT_QUADRANTS] in Hq.
    destruct Hq as [<- | [<- | [<- | [<- | []]]]]; qc_eq. }
  assert (Hfan : fan = [centerPoint] ++ arc
                       ++ (if lo >? hi then [vertex hi] else [])
                       ++ [centerPoint]).
  { unfold fan, AlignmentDebug.generateQuadrantVertices.
    fold centerPoint lo hi.
    change (if lo >? hi then hi + num 360 else hi) with (adjustedEnd lo hi).
    rewrite (arcLoop_exact 45 _ centerPoint mb radius lo (adjustedEnd lo hi)
               [centerPoint] Hspan).
    - destruct (lo >? hi); rewrite <- !app_assoc; reflexivity.
    - unfold AlignmentDebug.arcFuel.
      replace (lo <=? adjustedEnd lo hi) with true.
      + replace ((adjustedEnd lo hi - lo) / num 2) with (of_nat 45).
        * unfold trunc, of_nat. rewrite this_num. cbn [inject_Z Qnum Qden].
          rewrite Z.quot_1_r, Nat2Z.id. lia.
        * rewrite Hspan. field. discriminate.
      + symmetry. apply leb_le. rewrite Hspan.
        pose proof (of_nat_nonneg 45) as P. unfold Qcle in *.
        rewrite this_plus, this_mult, this_2.
        change (this 0) with 0%Q in P. lra. }
  split; [exact Hfan | split; [| split]].
  - rewrite Hspan. f_equal.
  - rewrite Hfan. unfold arc.
    destruct (lo >? hi);
      rewrite !length_app, length_map, length_seq; reflexivity.
  - destruct (arcFuel_enough lo (adjustedEnd lo hi)) as [j [Hj Hf]].
    apply (arcLoop_fuel j); assumption.
Qed.

Lemma X20_witness :
  In (AlignmentQuadrant.mk "CENTER_FORWARD" (num 315) (num 45) CENTRE)
    ALIGNMENT_QUADRANTS
  /\ List.length
       (AlignmentDebug.generateQuadrantVertices (G := GridGeolib.geolib)
          (num 0, num 1) (num 30)
          (AlignmentQuadrant.mk "CENTER_FORWARD" (num 315) (num 45) CENTRE)
          (num 100))
     = 49%nat.
Proof.
  assert (H : In (AlignmentQuadrant.mk "CENTER_FORWARD" (num 315) (num 45)
                    CENTRE)
                ALIGNMENT_QUADRANTS).
  { cbn [In ALIGNMENT_QUADRANTS]. auto. }
  split; [exact H |].
  exact (proj1 (proj2 (proj2
    (X20_quadrant_fans_of_the_table GridGeolib.geolib
       (num 0, num 1) (num 30) _ (num 100) 0 H)))).
Defined.

(** X23.  The handlers of the layer never touch its props, [onClick]
    never changes the layer object at all, and [onHover] changes it (its
    stored alignment) only in WIDTH_SELECTION: a hover in any other mode
    recomputes no alignment. *)
Theorem X23_handlers_leave_the_layer_alone :
  forall (G : Geolib) (this : OrbitAreaEditor.Layer) (info : PickingInfo),
    EditorState.mode (OrbitAreaEditor.editorState (OrbitAreaEditor.props this))
    <> WIDTH_SELECTION ->
    OrbitAreaEditor.layer (OrbitAreaEditor.onHover this info) = this
    /\ (forall anyLayer anyInfo,
          OrbitAreaEditor.layer (OrbitAreaEditor.onClick anyLayer anyInfo)
          = anyLayer
          /\ OrbitAreaEditor.props
               (OrbitAreaEditor.layer (OrbitAreaEditor.onHover anyLayer anyInfo))
             = OrbitAreaEditor.props anyLayer).
Proof.
  intros G this info Hmode. split.
  - unfold OrbitAreaEditor.onHover.
    destruct (OrbitAreaEditor.onStateChange (OrbitAreaEditor.props this));
      [| reflexivity].
    destruct (coordinate info); [| reflexivity]. cbn [negb].
    destruct (EditorState.mode _); try reflexivity. contradiction.
  - clear Hmode. intros l i. split.
    + unfold OrbitAreaEditor.onClick.
      destruct (OrbitAreaEditor.onStateChange (OrbitAreaEditor.props l));
        [| reflexivity].
      cbn [negb].
      destruct (EditorState.mode _); try reflexivity.
      destruct (EditorState.firstPoint _); [| reflexivity].
      destruct (EditorState.secondPoint _); reflexivity.
    + unfold OrbitAreaEditor.onHover.
      destruct (OrbitAreaEditor.onStateChange (OrbitAreaEditor.props l));
        [| reflexivity].
      destruct (coordinate i); [| reflexivity]. cbn [negb].
      destruct (EditorState.mode _); try reflexivity.
      destruct (EditorState.firstPoint _); [| reflexivity].
      destruct (EditorState.secondPoint _); reflexivity.
Qed.

Lemma X23_witness :
  EditorState.mode
    (OrbitAreaEditor.editorState (OrbitAreaEditor.props awaitingFirstPoint))
  <> WIDTH_SELECTION
  /\ OrbitAreaEditor.layer
       (OrbitAreaEditor.onHover (G := GridGeolib.geolib) awaitingFirstPoint
          (pickAt (GridGeolib.pt 1 1)))
     = awaitingFirstPoint.
Proof.
  assert (H : EditorState.mode
                (OrbitAreaEditor.editorState
                   (OrbitAreaEditor.props awaitingFirstPoint))
              <> WIDTH_SELECTION) by discriminate.
  split; [exact H |].
  exact (proj1 (X23_handlers_leave_the_layer_alone GridGeolib.geolib
                  awaitingFirstPoint (pickAt (GridGeolib.pt 1 1)) H)).
Defined.
